(** * A1335: register codec and command sequencing of the Allegro A1335 driver

    Shallow embedding of [A1335.h] / [A1335.cpp].

    - Fixed-width C++ integers are [Z] with the conversion written out
      ([to_byte], [to_int16], [to_uint16], [to_int32]).
    - [bytes_2] / [bytes_4] are the byte arrays of the unions; the integer
      view is the little-endian reading of the array (AVR and ARM targets),
      which is also what the names [lsBy] / [msBy] of the source assume.
    - The [Wire] object is the external bus transport.  It is modelled as a
      recording test double in front of an arbitrary slave device
      ([I2CSlave]); every call to it and every delay is appended to [calls].
    - Member functions run in a state monad over the driver object and the
      bus.
    - [double] is IEEE binary64 (primitive floats). *)

From Stdlib Require Import ZArith List Bool Lia Floats Uint63.
Import ListNotations.
Local Open Scope Z_scope.

(** ** Integer conversions *)

Definition to_byte (z : Z) : Z := z mod 256.
Definition to_uint16 (z : Z) : Z := z mod 65536.
Definition to_int16 (z : Z) : Z := (z + 32768) mod 65536 - 32768.
Definition to_int32 (z : Z) : Z := (z + 2147483648) mod 4294967296 - 2147483648.

(** [double(x)] for an unsigned 16-bit [x]. *)
Definition to_double (z : Z) : float := PrimFloat.of_uint63 (Uint63.of_Z z).

(** ** Byte arrays *)

(** [a[i]] and [a[i] = v] on the byte array of a union. *)
Definition get (i : nat) (a : list Z) : Z := nth i a 0.

Fixpoint set (i : nat) (v : Z) (a : list Z) : list Z :=
  match a, i with
  | [], _ => []
  | _ :: t, O => v :: t
  | h :: t, S j => h :: set j v t
  end.

(** Little-endian reading of a byte array as an unsigned number. *)
Fixpoint le_value (a : list Z) : Z :=
  match a with
  | [] => 0
  | h :: t => h + 256 * le_value t
  end.

(** Little-endian bytes of a number. *)
Fixpoint le_bytes (n : nat) (z : Z) : list Z :=
  match n with
  | O => []
  | S m => z mod 256 :: le_bytes m (z / 256)
  end.

(** *** class bytes_2 *)
Module bytes_2.

Record t := mk { bytes : list Z }.

(* bytes_2::bytes_2() *)
Definition new : t := mk (le_bytes 2 0).

(* bytes_2::bytes_2(int16_t integ) *)
Definition of_int (integ : Z) : t := mk (le_bytes 2 integ).

(* int16_t& bytes_2::in(), read *)
Definition in_ (r : t) : Z := to_int16 (le_value (bytes r)).

(* byte& bytes_2::lsBy(byte n): the cell of [bytes] the reference names *)
Definition lsBy (n : Z) : nat :=
  let n := to_byte n in
  let n := if n >? 1 then 1 else if n <? 0 then 0 else n in
  Z.to_nat n.

(* byte& bytes_2::msBy(byte n) *)
Definition msBy (n : Z) : nat :=
  let n := to_byte n in
  let n := if n >? 1 then 1 else if n <? 0 then 0 else n in
  Z.to_nat (1 - n).

(* reading and assigning through such a reference *)
Definition rd (cell : nat) (r : t) : Z := get cell (bytes r).
Definition wr (cell : nat) (v : Z) (r : t) : t := mk (set cell (to_byte v) (bytes r)).

End bytes_2.

(** *** class bytes_4 *)
Module bytes_4.

Record t := mk { bytes : list Z }.

(* bytes_4::bytes_4() *)
Definition new : t := mk (le_bytes 4 0).

(* bytes_4::bytes_4(int32_t integ) *)
Definition of_int (integ : Z) : t := mk (le_bytes 4 integ).

(* int32_t& bytes_4::in(), read *)
Definition in_ (r : t) : Z := to_int32 (le_value (bytes r)).

(* byte& bytes_4::lsBy(byte n) *)
Definition lsBy (n : Z) : nat :=
  let n := to_byte n in
  let n := if n >? 3 then 3 else if n <? 0 then 0 else n in
  Z.to_nat n.

(* byte& bytes_4::msBy(byte n) *)
Definition msBy (n : Z) : nat :=
  let n := to_byte n in
  let n := if n >? 3 then 3 else if n <? 0 then 0 else n in
  Z.to_nat (3 - n).

Definition rd (cell : nat) (r : t) : Z := get cell (bytes r).
Definition wr (cell : nat) (v : Z) (r : t) : t := mk (set cell (to_byte v) (bytes r)).

End bytes_4.

(** ** Register addresses and constant tables *)

Definition EWA   : Z := 0x02.
Definition EWD   : Z := 0x04.
Definition EWCS  : Z := 0x08.
Definition ERA   : Z := 0x0A.
Definition ERCS  : Z := 0x0C.
Definition ERD   : Z := 0x0E.
Definition CTRL  : Z := 0x1E.
Definition ANG   : Z := 0x20.
Definition STA   : Z := 0x22.
Definition ERR   : Z := 0x24.
Definition XERR  : Z := 0x26.
Definition TSEN  : Z := 0x28.
Definition FIELD : Z := 0x2A.
Definition ERM   : Z := 0x34.
Definition XERM  : Z := 0x36.

(* const int16_t ORATE = 0xFFD0; *)
Definition ORATE : Z := to_int16 0xFFD0.

Definition ipm   : list Z := [0x80; 0x46].
Definition rpm   : list Z := [0xC0; 0x46].
Definition hre   : list Z := [0x20; 0xB9].
Definition sre   : list Z := [0x10; 0xB9].
Definition csta  : list Z := [0x04; 0x46].
Definition cxerr : list Z := [0x02; 0x46].
Definition cerr  : list Z := [0x01; 0x46].

Definition ria   : list Z := [0x80; 0x00].
Definition efa   : list Z := [0x40; 0x00].
Definition nfa   : list Z := [0x20; 0x00].
Definition par   : list Z := [0x10; 0x00].
Definition ang   : list Z := [0x0F; 0xFF].

Definition ris   : list Z := [0xF0; 0x00].
Definition por   : list Z := [0x08; 0x00].
Definition srf   : list Z := [0x04; 0x00].
Definition nfs   : list Z := [0x02; 0x00].
Definition efs   : list Z := [0x01; 0x00].
Definition mps   : list Z := [0x00; 0xF0].
Definition phase : list Z := [0x00; 0x0F].

Definition rit   : list Z := [0xF0; 0x00].
Definition temp  : list Z := [0x0F; 0xFF].

Definition rif   : list Z := [0xF0; 0x00].
Definition field : list Z := [0x0F; 0xFF].

(** ** The bus transport *)

(** What a recording transport sees: each call on [Wire] and each delay. *)
Inductive call : Type :=
| BeginTransmission (address : Z)
| WriteByte (b : Z)
| EndTransmission
| RequestFrom (address quantity : Z)
| Available
| Read
| DelayMicroseconds (us : Z)
| Delay (ms : Z).

(** The device at the other end of the bus: how it answers a write
    transaction (status code of [endTransmission]) and a read request
    (the bytes it delivers). *)
Class I2CSlave (D : Type) : Type := {
  transmit : Z -> list Z -> D -> Z * D;
  reply    : Z -> Z -> D -> list Z * D
}.

Record Wire (D : Type) : Type := mkWire {
  txAddress : Z;
  txBuffer  : list Z;
  rxBuffer  : list Z;
  slave     : D;
  calls     : list call
}.
Arguments mkWire {D}.
Arguments txAddress {D}.
Arguments txBuffer {D}.
Arguments rxBuffer {D}.
Arguments slave {D}.
Arguments calls {D}.

(** ** class A1335: the cached fields *)

Record A1335 : Type := mkA1335 {
  address        : Z;
  processorState : Z;
  outputRate     : Z
}.

(* A1335::A1335() with the default member initialisers of the header *)
Definition A1335_new : A1335 := mkA1335 0x0C 4 0.

Record System (D : Type) : Type := mkSystem {
  sensor : A1335;
  wire   : Wire D
}.
Arguments mkSystem {D}.
Arguments sensor {D}.
Arguments wire {D}.

(** ** State monad *)

Definition M (D A : Type) : Type := System D -> A * System D.

Definition ret {D A} (a : A) : M D A := fun s => (a, s).

Definition bind {D A B} (c : M D A) (k : A -> M D B) : M D B :=
  fun s => let (a, s') := c s in k a s'.

Declare Scope driver_scope.
Delimit Scope driver_scope with driver.
Notation "x <- c ;; k" := (bind c (fun x => k))
  (at level 61, c at next level, right associativity) : driver_scope.
Notation "c ;; k" := (bind c (fun _ => k))
  (at level 61, right associativity) : driver_scope.
Local Open Scope driver_scope.

(** [for (int i = 0; i < n; i++) body(i)] threading a local variable. *)
Fixpoint for_ {D L} (i : Z) (n : nat) (body : Z -> L -> M D L) (l : L) : M D L :=
  match n with
  | O => ret l
  | S m => l' <- body i l ;; for_ (i + 1) m body l'
  end.

Section Driver.

Context {D : Type} `{I2CSlave D}.

Definition record (c : call) (w : Wire D) : Wire D :=
  mkWire (txAddress w) (txBuffer w) (rxBuffer w) (slave w) (calls w ++ [c]).

Definition on_wire {A} (f : Wire D -> A * Wire D) : M D A :=
  fun s => let (a, w) := f (wire s) in (a, mkSystem (sensor s) w).

(* Wire.beginTransmission(address) *)
Definition Wire_beginTransmission (a : Z) : M D unit :=
  on_wire (fun w =>
    let w := record (BeginTransmission a) w in
    (tt, mkWire (to_byte a) [] (rxBuffer w) (slave w) (calls w))).

(* Wire.write(b) *)
Definition Wire_write (b : Z) : M D unit :=
  on_wire (fun w =>
    let w := record (WriteByte b) w in
    (tt, mkWire (txAddress w) (txBuffer w ++ [to_byte b]) (rxBuffer w) (slave w) (calls w))).

(* Wire.endTransmission() *)
Definition Wire_endTransmission : M D Z :=
  on_wire (fun w =>
    let w := record EndTransmission w in
    let (status, d) := transmit (txAddress w) (txBuffer w) (slave w) in
    (to_byte status, mkWire (txAddress w) [] (rxBuffer w) d (calls w))).

(* Wire.requestFrom(address, quantity) *)
Definition Wire_requestFrom (a q : Z) : M D unit :=
  on_wire (fun w =>
    let w := record (RequestFrom a q) w in
    let (data, d) := reply (to_byte a) q (slave w) in
    (tt, mkWire (txAddress w) (txBuffer w)
                (map to_byte (firstn (Z.to_nat q) data)) d (calls w))).

(* Wire.available() *)
Definition Wire_available : M D Z :=
  on_wire (fun w =>
    let w := record Available w in
    (Z.of_nat (length (rxBuffer w)), w)).

(* Wire.read(): next received byte, or -1 when there is none *)
Definition Wire_read : M D Z :=
  on_wire (fun w =>
    let w := record Read w in
    match rxBuffer w with
    | [] => (-1, w)
    | b :: rest => (b, mkWire (txAddress w) (txBuffer w) rest (slave w) (calls w))
    end).

Definition delayMicroseconds (us : Z) : M D unit :=
  on_wire (fun w => (tt, record (DelayMicroseconds us) w)).

Definition delay (ms : Z) : M D unit :=
  on_wire (fun w => (tt, record (Delay ms) w)).

(** Access to the member variables. *)
Definition this : M D A1335 := fun s => (sensor s, s).

Definition set_address (a : Z) : M D unit :=
  fun s => (tt, mkSystem (mkA1335 a (processorState (sensor s)) (outputRate (sensor s))) (wire s)).

Definition set_processorState (p : Z) : M D unit :=
  fun s => (tt, mkSystem (mkA1335 (address (sensor s)) p (outputRate (sensor s))) (wire s)).

Definition set_outputRate (r : Z) : M D unit :=
  fun s => (tt, mkSystem (mkA1335 (address (sensor s)) (processorState (sensor s)) r) (wire s)).

(* int16_t A1335::getAddress() *)
Definition getAddress : M D Z := o <- this ;; ret (address o).

(* byte A1335::getProcessorState() *)
Definition getProcessorState : M D Z := o <- this ;; ret (processorState o).

(* byte A1335::getOutputRate() *)
Definition getOutputRate : M D Z := o <- this ;; ret (outputRate o).

(* byte A1335::normalWrite(byte reg, int16_t data) *)
Definition normalWrite (reg data : Z) : M D Z :=
  let reg := to_byte reg in
  let data_bytes := bytes_2.of_int data in
  o <- this ;;
  Wire_beginTransmission (address o) ;;
  Wire_write reg ;;
  for_ 0 2 (fun i _ => Wire_write (bytes_2.rd (bytes_2.msBy i) data_bytes)) tt ;;
  Wire_endTransmission.

(* byte A1335::extendedWrite(int16_t reg, int32_t data) *)
Definition extendedWrite (reg data : Z) : M D Z :=
  let data_bytes := bytes_4.of_int data in
  o <- this ;;
  Wire_beginTransmission (address o) ;;
  Wire_write EWA ;;
  Wire_write (to_byte (Z.shiftr reg 8)) ;;
  Wire_write (to_byte reg) ;;
  for_ 0 4 (fun i _ => Wire_write (bytes_4.rd (bytes_4.msBy i) data_bytes)) tt ;;
  Wire_write 0x80 ;;
  Wire_endTransmission ;;
  delayMicroseconds 10 ;;
  Wire_requestFrom (address o) 1 ;;
  r <- Wire_read ;;
  ret (to_byte r).

(* int16_t A1335::normalRead(byte reg) *)
Definition normalRead (reg : Z) : M D Z :=
  let reg := to_byte reg in
  let data := bytes_2.new in
  o <- this ;;
  Wire_beginTransmission (address o) ;;
  Wire_write reg ;;
  Wire_endTransmission ;;
  Wire_requestFrom (address o) 2 ;;
  data <- for_ 0 2 (fun i data =>
            n <- Wire_available ;;
            if n =? 0 then ret data
            else b <- Wire_read ;; ret (bytes_2.wr (bytes_2.msBy i) b data)) data ;;
  ret (bytes_2.in_ data).

(* int32_t A1335::extendedRead(int16_t reg) *)
Definition extendedRead (reg : Z) : M D Z :=
  let data := bytes_4.new in
  o <- this ;;
  Wire_beginTransmission (address o) ;;
  Wire_write ERA ;;
  Wire_write (to_byte (Z.shiftr reg 8)) ;;
  Wire_write (to_byte reg) ;;
  Wire_write 0x80 ;;
  Wire_endTransmission ;;
  delayMicroseconds 10 ;;
  Wire_requestFrom (address o) 5 ;;
  rstate <- Wire_read ;;
  data <- for_ 0 4 (fun i data =>
            n <- Wire_available ;;
            if n =? 0 then ret data
            else b <- Wire_read ;; ret (bytes_4.wr (bytes_4.msBy i) b data)) data ;;
  ret (bytes_4.in_ data).

(** The [switch] of [start] on the second status byte: the new value of
    [processorState], given its value before. *)
Definition switch_processing_status (byte1 before : Z) : Z :=
  let processing_status := to_byte (Z.shiftr (Z.land byte1 (get 1 mps)) 4) in
  let processing_phase := to_byte (Z.shiftr (Z.land byte1 (get 1 phase)) 0) in
  if processing_status =? 0 then 0
  else if processing_status =? 1 then
         (if processing_phase =? 0 then 1 else 2)
  else if processing_status =? 14 then 3
  else before.

(* byte A1335::start(int16_t address_) *)
Definition start (address_ : Z) : M D Z :=
  let address_ := to_int16 address_ in
  o <- this ;;
  Wire_beginTransmission (address o) ;;
  error <- Wire_endTransmission ;;
  if negb (error =? 0) then
    set_processorState 4 ;;
    ret error
  else
    set_address address_ ;;
    v <- normalRead STA ;;
    let state := bytes_2.of_int v in
    x <- extendedRead ORATE ;;
    let orate := bytes_4.of_int x in
    o <- this ;;
    set_processorState
      (switch_processing_status (bytes_2.rd (bytes_2.msBy 1) state) (processorState o)) ;;
    set_outputRate (bytes_4.rd (bytes_4.msBy 3) orate) ;;
    delay 1 ;;
    ret error.

(** Lines 221-226 of [readAngleRaw]: the XOR fold on [int16_t parityCheck]. *)
Definition parityCheck (angReg : bytes_2.t) : Z :=
  let parityCheck := bytes_2.in_ angReg in
  let parityCheck := to_int16 (Z.lxor parityCheck (Z.shiftr parityCheck 8)) in
  let parityCheck := to_int16 (Z.lxor parityCheck (Z.shiftr parityCheck 4)) in
  let parityCheck := to_int16 (Z.lxor parityCheck (Z.shiftr parityCheck 2)) in
  let parityCheck := to_int16 (Z.lxor parityCheck (Z.shiftr parityCheck 1)) in
  to_int16 (Z.land parityCheck 1).

(* uint16_t A1335::readAngleRaw() *)
Definition readAngleRaw : M D Z :=
  v <- normalRead ANG ;;
  let angReg := bytes_2.of_int v in
  if parityCheck angReg =? 0 then ret 0
  else
    let cell := bytes_2.msBy 0 in
    let angReg := bytes_2.wr cell (Z.land (bytes_2.rd cell angReg) (get 0 ang)) angReg in
    ret (to_uint16 (bytes_2.in_ angReg)).

(* double A1335::readAngle() *)
Definition readAngle : M D float :=
  raw <- readAngleRaw ;;
  ret (to_double raw * 360 / 4096)%float.

(* uint16_t A1335::readTempRaw() *)
Definition readTempRaw : M D Z :=
  v <- normalRead TSEN ;;
  let tempReg := bytes_2.of_int v in
  let cell := bytes_2.msBy 0 in
  let tempReg := bytes_2.wr cell (Z.land (bytes_2.rd cell tempReg) (get 0 temp)) tempReg in
  ret (to_uint16 (bytes_2.in_ tempReg)).

(* double A1335::readTemp() *)
Definition readTemp : M D float :=
  raw <- readTempRaw ;;
  ret (to_double raw / 8)%float.

(* uint16_t A1335::readFieldRaw() *)
Definition readFieldRaw : M D Z :=
  v <- normalRead FIELD ;;
  let fieldReg := bytes_2.of_int v in
  let cell := bytes_2.msBy 0 in
  let fieldReg := bytes_2.wr cell (Z.land (bytes_2.rd cell fieldReg) (get 0 field)) fieldReg in
  ret (to_uint16 (bytes_2.in_ fieldReg)).

(* double A1335::readField() *)
Definition readField : M D float :=
  raw <- readFieldRaw ;;
  ret (to_double raw / 10000)%float.

(* byte A1335::readOutputRate() *)
Definition readOutputRate : M D Z :=
  x <- extendedRead ORATE ;;
  let oRate := bytes_4.of_int x in
  ret (bytes_4.rd (bytes_4.msBy 3) oRate).

(** The clamp at the head of [setOutputRate].  The parameter is a [byte]:
    whatever integer the caller writes is converted on entry. *)
Definition clamp_rate (rate : Z) : Z :=
  let rate := to_byte rate in
  if rate <? 0 then 0 else if rate >=? 8 then 7 else rate.

(** The first loop of [setOutputRate]: fills [idle_mode] and [run_mode]
    from [ipm] and [rpm], for [i = 0, 1]. *)
Definition mode_words : bytes_2.t * bytes_2.t :=
  fold_left
    (fun (p : bytes_2.t * bytes_2.t) (i : Z) =>
       (bytes_2.wr (bytes_2.msBy i) (get (Z.to_nat i) ipm) (fst p),
        bytes_2.wr (bytes_2.msBy i) (get (Z.to_nat i) rpm) (snd p)))
    [0; 1] (bytes_2.new, bytes_2.new).

(* byte A1335::setOutputRate(byte rate); the body has no return statement *)
Definition setOutputRate (rate : Z) : M D unit :=
  let rate := clamp_rate rate in
  let idle_mode := fst mode_words in
  let run_mode := snd mode_words in
  normalWrite CTRL (bytes_2.in_ idle_mode) ;;
  delayMicroseconds 150 ;;
  let oRate := bytes_4.new in
  let oRate := bytes_4.wr (bytes_4.msBy 3) rate oRate in
  extendedWrite ORATE (bytes_4.in_ oRate) ;;
  delayMicroseconds 50 ;;
  normalWrite CTRL (bytes_2.in_ run_mode) ;;
  delayMicroseconds 150.

End Driver.

(** ** A scripted device

    A slave that answers successive write transactions with the status
    codes of [acks] (then 0) and successive read requests with the byte
    strings of [answers] (then nothing). *)

Record Script : Type := mkScript {
  acks    : list Z;
  answers : list (list Z)
}.

#[export] Instance Script_slave : I2CSlave Script := {
  transmit _ _ d :=
    match acks d with
    | [] => (0, d)
    | a :: rest => (a, mkScript rest (answers d))
    end;
  reply _ _ d :=
    match answers d with
    | [] => ([], d)
    | a :: rest => (a, mkScript (acks d) rest)
    end
}.

(** A freshly constructed driver in front of a scripted device. *)
Definition boot (d : Script) : System Script :=
  mkSystem A1335_new (mkWire 0 [] [] d []).

(** ** Specification vocabulary *)

(** The XOR of the 16 bits of a register value. *)
Definition xor_bits16 (v : Z) : bool :=
  fold_right xorb false (map (fun i => Z.testbit v (Z.of_nat i)) (seq 0 16)).

(** The 16-bit register value whose bytes are [hi] then [lo] on the wire. *)
Definition register16 (hi lo : Z) : Z := to_int16 (256 * hi + lo).

(** [readAngleRaw] after the register read: what it returns for the
    register value [v] (lines 219-232 without the bus access). *)
Definition angle_code (v : Z) : Z :=
  let angReg := bytes_2.of_int v in
  if parityCheck angReg =? 0 then 0
  else
    let cell := bytes_2.msBy 0 in
    let angReg := bytes_2.wr cell (Z.land (bytes_2.rd cell angReg) (get 0 ang)) angReg in
    to_uint16 (bytes_2.in_ angReg).

(** The reading is usable: [readAngleRaw] does not take the error return
    of line 228. *)
Definition angle_valid (v : Z) : bool :=
  negb (parityCheck (bytes_2.of_int v) =? 0).

(** The opening transaction of [start]. *)
Definition probe {D} `{I2CSlave D} : M D Z :=
  o <- this ;;
  Wire_beginTransmission (address o) ;;
  Wire_endTransmission.

(** Everything [start] does up to and including its two register reads,
    returning the status word and the output-rate word it read. *)
Definition start_reads {D} `{I2CSlave D} (address_ : Z) : M D (Z * Z) :=
  let address_ := to_int16 address_ in
  probe ;;
  set_address address_ ;;
  v <- normalRead STA ;;
  x <- extendedRead ORATE ;;
  ret (v, x).

(** What [start] does after its two register reads, given the status
    word [v] and the output-rate word [x] it read. *)
Definition start_finish {D} `{I2CSlave D} (v x : Z) : M D unit :=
  let state := bytes_2.of_int v in
  let orate := bytes_4.of_int x in
  o <- this ;;
  set_processorState
    (switch_processing_status (bytes_2.rd (bytes_2.msBy 1) state) (processorState o)) ;;
  set_outputRate (bytes_4.rd (bytes_4.msBy 3) orate) ;;
  delay 1.

(** The request half of [normalRead]: everything before its receive loop. *)
Definition normalRead_request {D} `{I2CSlave D} (reg : Z) : M D unit :=
  o <- this ;;
  Wire_beginTransmission (address o) ;;
  Wire_write (to_byte reg) ;;
  Wire_endTransmission ;;
  Wire_requestFrom (address o) 2.

(** Byte [k] of an integer, counted from the least significant one. *)
Definition byte_of (k : Z) (x : Z) : Z := (x / 256 ^ k) mod 256.

(** A computation records exactly the calls [l] and leaves the driver
    object [o] as it is. *)
Definition emits {D A} (o : A1335) (c : M D A) (l : list call) : Prop :=
  forall s, sensor s = o ->
    calls (wire (snd (c s))) = calls (wire s) ++ l /\ sensor (snd (c s)) = o.

(** A computation only appends to the record of calls. *)
Definition appends {D A} (c : M D A) : Prop :=
  forall s, exists l, calls (wire (snd (c s))) = calls (wire s) ++ l.

(** Bus transactions among recorded calls: completed write transactions
    and read requests. *)
Definition is_transaction (c : call) : bool :=
  match c with
  | EndTransmission | RequestFrom _ _ => true
  | _ => false
  end.

Definition transactions (l : list call) : nat :=
  length (filter is_transaction l).

(** A computation leaves the three cached fields alone. *)
Definition preserves_sensor {D A} (c : M D A) : Prop :=
  forall s, sensor (snd (c s)) = sensor s.

(** Exhaustive check of a predicate on [lo, lo + n). *)
Fixpoint all_from (lo : Z) (n : nat) (p : Z -> bool) : bool :=
  match n with
  | O => true
  | S m => p lo && all_from (lo + 1) m p
  end.

(** An array of [n] bytes: the right length, every cell in 0..255. *)
Definition byte_array (n : nat) (a : list Z) : Prop :=
  length a = n /\ Forall (fun b => 0 <= b < 256) a.

(** [uint16_t] result of masking the high byte of a register value with
    [mask]: the common body of [readTempRaw] and [readFieldRaw]
    (lines 240-242 and 250-252 without the bus access). *)
Definition masked_code (mask v : Z) : Z :=
  let reg := bytes_2.of_int v in
  let cell := bytes_2.msBy 0 in
  let reg := bytes_2.wr cell (Z.land (bytes_2.rd cell reg) mask) reg in
  to_uint16 (bytes_2.in_ reg).

(** The request half of [extendedRead]: everything before the status byte
    is read. *)
Definition extendedRead_request {D} `{I2CSlave D} (reg : Z) : M D unit :=
  o <- this ;;
  Wire_beginTransmission (address o) ;;
  Wire_write ERA ;;
  Wire_write (to_byte (Z.shiftr reg 8)) ;;
  Wire_write (to_byte reg) ;;
  Wire_write 0x80 ;;
  Wire_endTransmission ;;
  delayMicroseconds 10 ;;
  Wire_requestFrom (address o) 5.

(** The 32-bit register value whose data bytes are [b3 b2 b1 b0] on the
    wire, most-significant first. *)
Definition register32 (b3 b2 b1 b0 : Z) : Z :=
  to_int32 (16777216 * b3 + 65536 * b2 + 256 * b1 + b0).

(** Calls of a receive loop: only [available] and [read]. *)
Definition is_receive (c : call) : bool :=
  match c with
  | Available | Read => true
  | _ => false
  end.

(** A computation appends calls [l] with [P l] to the record. *)
Definition records {D A} (P : list call -> Prop) (c : M D A) : Prop :=
  forall s, exists l, calls (wire (snd (c s))) = calls (wire s) ++ l /\ P l.

(** Calls made while draining the receive buffer, and nothing else. *)
Definition receive_only (l : list call) : Prop := forallb is_receive l = true.

(** A computation appends calls that hold exactly [n] bus transactions. *)
Definition counts {D A} (n : nat) (c : M D A) : Prop :=
  records (fun l => transactions l = n) c.

(** The cached fields hold values of their types' documented ranges. *)
Definition cache_ok (o : A1335) : Prop :=
  0 <= processorState o <= 4 /\ 0 <= outputRate o < 256.

(** * Properties *)

(** ** Integer ranges *)

Lemma all_from_spec (p : Z -> bool) (n : nat) :
  forall lo, all_from lo n p = true ->
  forall z, lo <= z < lo + Z.of_nat n -> p z = true.
Proof.
  induction n as [|n IH]; intros lo Hall z Hz.
  - simpl in Hz. lia.
  - simpl in Hall. apply andb_true_iff in Hall. destruct Hall as [Hlo Hrest].
    destruct (Z.eq_dec z lo) as [->|Hne]; [exact Hlo|].
    apply (IH (lo + 1) Hrest). lia.
Qed.

Lemma to_int16_range z : -32768 <= to_int16 z < 32768.
Proof. unfold to_int16. pose proof (Z.mod_pos_bound (z + 32768) 65536). lia. Qed.

Lemma to_int32_range z : -2147483648 <= to_int32 z < 2147483648.
Proof. unfold to_int32. pose proof (Z.mod_pos_bound (z + 2147483648) 4294967296). lia. Qed.

Lemma to_byte_range z : 0 <= to_byte z < 256.
Proof. unfold to_byte. apply Z.mod_pos_bound. lia. Qed.

Lemma to_byte_small z : 0 <= z < 256 -> to_byte z = z.
Proof. intros Hz. unfold to_byte. apply Z.mod_small. exact Hz. Qed.

Lemma to_int16_small z : -32768 <= z < 32768 -> to_int16 z = z.
Proof. intros Hz. unfold to_int16. rewrite Z.mod_small by lia. lia. Qed.

(** ** RegisterValue *)

Lemma le_value_le_bytes (n : nat) :
  forall z, le_value (le_bytes n z) = z mod 256 ^ Z.of_nat n.
Proof.
  induction n as [|n IH]; intros z.
  - simpl. rewrite Z.mod_1_r. reflexivity.
  - cbn [le_bytes le_value]. rewrite IH, Nat2Z.inj_succ, Z.pow_succ_r by lia.
    rewrite Z.rem_mul_r by lia. reflexivity.
Qed.

Lemma bytes_2_round_trip v :
  -32768 <= v < 32768 -> bytes_2.in_ (bytes_2.of_int v) = v.
Proof.
  intros Hv. unfold bytes_2.in_, bytes_2.of_int, bytes_2.bytes.
  rewrite le_value_le_bytes. unfold to_int16.
  change (256 ^ Z.of_nat 2) with 65536.
  Z.div_mod_to_equations. lia.
Qed.

Lemma bytes_4_round_trip v :
  -2147483648 <= v < 2147483648 -> bytes_4.in_ (bytes_4.of_int v) = v.
Proof.
  intros Hv. unfold bytes_4.in_, bytes_4.of_int, bytes_4.bytes.
  rewrite le_value_le_bytes. unfold to_int32.
  change (256 ^ Z.of_nat 4) with 4294967296.
  Z.div_mod_to_equations. lia.
Qed.

(** C9. Building a [bytes_2] / [bytes_4] from a representable integer and
    reading [in()] gives the integer back, and [msBy(0)] names the same
    cell of the array as [lsBy(N-1)]. *)
Theorem register_value_round_trip_and_byte_order :
  (forall v, -32768 <= v < 32768 -> bytes_2.in_ (bytes_2.of_int v) = v) /\
  (forall v, -2147483648 <= v < 2147483648 -> bytes_4.in_ (bytes_4.of_int v) = v) /\
  bytes_2.msBy 0 = bytes_2.lsBy 1 /\
  bytes_4.msBy 0 = bytes_4.lsBy 3.
Proof.
  split; [exact bytes_2_round_trip|].
  split; [exact bytes_4_round_trip|].
  split; reflexivity.
Qed.

Lemma register_value_round_trip_and_byte_order_witness :
  bytes_2.in_ (bytes_2.of_int (-12345)) = -12345 /\
  bytes_4.in_ (bytes_4.of_int 305419896) = 305419896.
Proof.
  destruct register_value_round_trip_and_byte_order as [H2 [H4 _]].
  split; [apply (H2 (-12345)); lia | apply (H4 305419896); lia].
Defined.

Lemma get_le_bytes (n : nat) :
  forall (k : nat) z, (k < n)%nat -> get k (le_bytes n z) = byte_of (Z.of_nat k) z.
Proof.
  unfold get, byte_of. induction n as [|n IH]; intros k z Hk; [lia|].
  destruct k as [|k]; cbn [le_bytes nth].
  - change (256 ^ Z.of_nat 0) with 1. rewrite Z.div_1_r. reflexivity.
  - rewrite IH by lia. rewrite Nat2Z.inj_succ, Z.pow_succ_r by lia.
    rewrite Z.div_div by lia. reflexivity.
Qed.

Lemma byte_of_small x : 0 <= x < 256 ->
  byte_of 0 x = x /\ byte_of 1 x = 0 /\ byte_of 2 x = 0 /\ byte_of 3 x = 0.
Proof.
  intros Hx. unfold byte_of. simpl Z.pow.
  rewrite Z.div_1_r, Z.mod_small by lia.
  rewrite !Z.div_small by lia. auto.
Qed.

Lemma clamp_rate_range rate : 0 <= clamp_rate rate <= 7.
Proof.
  unfold clamp_rate. pose proof (to_byte_range rate).
  destruct (to_byte rate <? 0) eqn:E1; [lia|].
  destruct (to_byte rate >=? 8) eqn:E2; lia.
Qed.

Lemma clamp_rate_high rate : 7 < rate < 256 -> clamp_rate rate = 7.
Proof.
  intros Hr. unfold clamp_rate. rewrite to_byte_small by lia.
  destruct (rate <? 0) eqn:E1; [lia|].
  destruct (rate >=? 8) eqn:E2; lia.
Qed.

Lemma clamp_rate_low rate : 0 <= rate <= 7 -> clamp_rate rate = rate.
Proof.
  intros Hr. unfold clamp_rate. rewrite to_byte_small by lia.
  destruct (rate <? 0) eqn:E1; [lia|].
  destruct (rate >=? 8) eqn:E2; lia.
Qed.

(** The word [setOutputRate] hands to [extendedWrite]. *)
Lemma orate_word rate :
  bytes_4.in_ (bytes_4.wr (bytes_4.msBy 3) (clamp_rate rate) bytes_4.new)
  = clamp_rate rate.
Proof.
  pose proof (clamp_rate_range rate) as Hr.
  unfold bytes_4.in_, bytes_4.wr, bytes_4.new. cbn.
  rewrite to_byte_small by lia. unfold to_int32.
  Z.div_mod_to_equations. lia.
Qed.

(** ** The processor-state switch *)

Lemma nibble_range b :
  0 <= Z.shiftr (Z.land b 0xF0) 4 < 16 /\ 0 <= Z.land b 0x0F < 16.
Proof.
  split.
  - rewrite Z.shiftr_land. change (Z.shiftr 240 4) with (Z.ones 4).
    rewrite Z.land_ones by lia. apply Z.mod_pos_bound. reflexivity.
  - change 15 with (Z.ones 4). rewrite Z.land_ones by lia.
    apply Z.mod_pos_bound. reflexivity.
Qed.

Lemma switch_processing_status_table byte1 before :
  let processing_status := Z.shiftr (Z.land byte1 0xF0) 4 in
  let processing_phase := Z.land byte1 0x0F in
  let after := switch_processing_status byte1 before in
  (processing_status = 0 -> after = 0) /\
  (processing_status = 1 -> processing_phase = 0 -> after = 1) /\
  (processing_status = 1 -> processing_phase <> 0 -> after = 2) /\
  (processing_status = 14 -> after = 3) /\
  (processing_status <> 0 -> processing_status <> 1 ->
   processing_status <> 14 -> after = before).
Proof.
  cbv zeta. unfold switch_processing_status.
  change (get 1 mps) with 0xF0. change (get 1 phase) with 0x0F.
  rewrite Z.shiftr_0_r.
  destruct (nibble_range byte1) as [Hst Hph].
  rewrite !to_byte_small by lia.
  repeat split; intros;
    repeat match goal with
           | |- context [?a =? ?b] => destruct (Z.eqb_spec a b)
           end; try reflexivity; lia.
Qed.

(** ** Angle decoding *)

Lemma all_from_pages (p : Z -> bool) (n m : nat) (lo : Z) :
  all_from lo n (fun hi => all_from (256 * hi) m p) = true ->
  forall hi z, lo <= hi < lo + Z.of_nat n ->
               256 * hi <= z < 256 * hi + Z.of_nat m -> p z = true.
Proof.
  intros Hall hi z Hhi Hz.
  pose proof (all_from_spec _ _ _ Hall hi Hhi) as Hpage. cbv beta in Hpage.
  exact (all_from_spec _ _ _ Hpage z Hz).
Qed.

Lemma angle_code_checked :
  all_from (-128) 256 (fun hi => all_from (256 * hi) 256 (fun v =>
    Bool.eqb (angle_valid v) (xor_bits16 v) &&
    (angle_code v =? (if xor_bits16 v then Z.land (to_uint16 v) 0x0FFF else 0))))
  = true.
Proof. vm_cast_no_check (eq_refl true). Qed.

Lemma angle_code_spec v :
  -32768 <= v < 32768 ->
  angle_valid v = xor_bits16 v /\
  angle_code v = (if xor_bits16 v then Z.land (to_uint16 v) 0x0FFF else 0).
Proof.
  intros Hv.
  pose proof (all_from_pages _ _ _ _ angle_code_checked (v / 256) v) as Hok.
  cbv beta in Hok.
  assert (Hhi : -128 <= v / 256 < -128 + Z.of_nat 256).
  { change (Z.of_nat 256) with 256. Z.div_mod_to_equations. lia. }
  assert (Hlo : 256 * (v / 256) <= v < 256 * (v / 256) + Z.of_nat 256).
  { change (Z.of_nat 256) with 256. Z.div_mod_to_equations. lia. }
  specialize (Hok Hhi Hlo).
  apply andb_true_iff in Hok. destruct Hok as [H1 H2].
  split.
  - apply Bool.eqb_prop. exact H1.
  - apply Z.eqb_eq. exact H2.
Qed.

Section Runs.

Context {D : Type} `{I2CSlave D}.

(** ** Cached fields are left alone *)

Lemma preserves_ret A (a : A) : preserves_sensor (D := D) (ret a).
Proof. intros s. reflexivity. Qed.

Lemma preserves_bind A B (c : M D A) (k : A -> M D B) :
  preserves_sensor c -> (forall a, preserves_sensor (k a)) ->
  preserves_sensor (bind c k).
Proof.
  intros Hc Hk s. unfold bind. specialize (Hc s).
  destruct (c s) as [a s1]. simpl in Hc. rewrite Hk. exact Hc.
Qed.

Lemma preserves_on_wire A (f : Wire D -> A * Wire D) : preserves_sensor (on_wire f).
Proof. intros s. unfold on_wire. destruct (f (wire s)). reflexivity. Qed.

Lemma preserves_this : preserves_sensor (D := D) this.
Proof. intros s. reflexivity. Qed.

Lemma preserves_if A (b : bool) (c1 c2 : M D A) :
  preserves_sensor c1 -> preserves_sensor c2 ->
  preserves_sensor (if b then c1 else c2).
Proof. destruct b; auto. Qed.

Lemma preserves_for L (body : Z -> L -> M D L) (n : nat) :
  (forall i l, preserves_sensor (body i l)) ->
  forall i l, preserves_sensor (for_ i n body l).
Proof.
  intros Hbody. induction n as [|n IH]; intros i l; simpl.
  - apply preserves_ret.
  - apply preserves_bind; [apply Hbody | intros l'; apply IH].
Qed.

Create HintDb frame.
#[local] Hint Resolve preserves_ret preserves_on_wire preserves_this : frame.

Ltac frame :=
  repeat first
    [ solve [auto with frame]
    | apply preserves_bind; [|intro]
    | apply preserves_if
    | apply preserves_for; intros
    | progress unfold Wire_beginTransmission, Wire_write, Wire_endTransmission,
        Wire_requestFrom, Wire_available, Wire_read, delayMicroseconds, delay,
        getAddress, getProcessorState, getOutputRate ].

Lemma normalWrite_preserves reg data : preserves_sensor (normalWrite reg data).
Proof. unfold normalWrite. frame. Qed.

Lemma extendedWrite_preserves reg data : preserves_sensor (extendedWrite reg data).
Proof. unfold extendedWrite. frame. Qed.

Lemma normalRead_preserves reg : preserves_sensor (normalRead reg).
Proof. unfold normalRead. frame. Qed.

Lemma extendedRead_preserves reg : preserves_sensor (extendedRead reg).
Proof. unfold extendedRead. frame. Qed.

#[local] Hint Resolve normalWrite_preserves extendedWrite_preserves
  normalRead_preserves extendedRead_preserves : frame.

Lemma readAngleRaw_preserves : preserves_sensor readAngleRaw.
Proof. unfold readAngleRaw. frame. Qed.

Lemma readTempRaw_preserves : preserves_sensor readTempRaw.
Proof. unfold readTempRaw. frame. Qed.

Lemma readFieldRaw_preserves : preserves_sensor readFieldRaw.
Proof. unfold readFieldRaw. frame. Qed.

#[local] Hint Resolve readAngleRaw_preserves readTempRaw_preserves
  readFieldRaw_preserves : frame.

Lemma setOutputRate_preserves rate : preserves_sensor (setOutputRate rate).
Proof. unfold setOutputRate. frame. Qed.


(** ** Recorded calls *)

Lemma emits_ret o A (a : A) : emits (D := D) o (ret a) [].
Proof. intros s Hs. simpl. rewrite app_nil_r. auto. Qed.

Lemma emits_bind o A B (c : M D A) (k : A -> M D B) l1 l2 :
  emits o c l1 -> (forall a, emits o (k a) l2) -> emits o (bind c k) (l1 ++ l2).
Proof.
  intros Hc Hk s Hs. unfold bind. destruct (Hc s Hs) as [Hl Ho].
  destruct (c s) as [a s1]. simpl in Hl, Ho.
  destruct (Hk a s1 Ho) as [Hl2 Ho2]. rewrite Hl2, Hl, app_assoc. auto.
Qed.

Lemma emits_this o B (k : A1335 -> M D B) l :
  emits o (k o) l -> emits o (bind this k) l.
Proof. intros Hk s Hs. unfold bind, this. rewrite Hs. apply Hk. exact Hs. Qed.

Lemma emits_ext o A (c c' : M D A) l :
  (forall s, c s = c' s) -> emits o c' l -> emits o c l.
Proof. intros Hext Hc s Hs. rewrite Hext. apply Hc. exact Hs. Qed.

Lemma emits_conv o A (c : M D A) l l' : emits o c l -> l = l' -> emits o c l'.
Proof. intros Hc <-. exact Hc. Qed.

Lemma emits_beginTransmission o a :
  emits (D := D) o (Wire_beginTransmission a) [BeginTransmission a].
Proof. intros s Hs. simpl. auto. Qed.

Lemma emits_write o b : emits (D := D) o (Wire_write b) [WriteByte b].
Proof. intros s Hs. simpl. auto. Qed.

Lemma emits_endTransmission o : emits (D := D) o Wire_endTransmission [EndTransmission].
Proof.
  intros s Hs. unfold Wire_endTransmission, on_wire. simpl.
  destruct (transmit _ _ _). simpl. auto.
Qed.

Lemma emits_requestFrom o a q : emits (D := D) o (Wire_requestFrom a q) [RequestFrom a q].
Proof.
  intros s Hs. unfold Wire_requestFrom, on_wire. simpl.
  destruct (reply _ _ _). simpl. auto.
Qed.

Lemma emits_read o : emits (D := D) o Wire_read [Read].
Proof.
  intros s Hs. unfold Wire_read, on_wire. simpl.
  destruct (rxBuffer (wire s)); simpl; auto.
Qed.

Lemma emits_delayMicroseconds o us :
  emits (D := D) o (delayMicroseconds us) [DelayMicroseconds us].
Proof. intros s Hs. simpl. auto. Qed.

Ltac emit :=
  repeat first
    [ apply emits_this
    | eapply emits_bind; [|intro]
    | apply emits_beginTransmission
    | apply emits_write
    | apply emits_endTransmission
    | apply emits_requestFrom
    | apply emits_read
    | apply emits_delayMicroseconds
    | apply emits_ret ].

Lemma normalWrite_emits o reg data :
  emits o (normalWrite reg data)
    [ BeginTransmission (address o);
      WriteByte (to_byte reg);
      WriteByte (byte_of 1 data);
      WriteByte (byte_of 0 data);
      EndTransmission ].
Proof.
  unfold normalWrite. cbn [for_].
  eapply emits_conv; [emit|].
  cbn [app]. unfold byte_of, bytes_2.rd, bytes_2.of_int, bytes_2.bytes.
  cbn [bytes_2.msBy le_bytes get nth]. simpl Z.pow.
  rewrite Z.div_1_r. reflexivity.
Qed.

Lemma extendedWrite_emits o reg data :
  emits o (extendedWrite reg data)
    [ BeginTransmission (address o);
      WriteByte EWA;
      WriteByte (to_byte (Z.shiftr reg 8));
      WriteByte (to_byte reg);
      WriteByte (byte_of 3 data);
      WriteByte (byte_of 2 data);
      WriteByte (byte_of 1 data);
      WriteByte (byte_of 0 data);
      WriteByte 0x80;
      EndTransmission;
      DelayMicroseconds 10;
      RequestFrom (address o) 1;
      Read ].
Proof.
  unfold extendedWrite. cbn [for_].
  eapply emits_conv; [emit|].
  cbn [app]. unfold bytes_4.rd, bytes_4.of_int, bytes_4.bytes.
  change (bytes_4.msBy 0) with 3%nat. change (bytes_4.msBy (0 + 1)) with 2%nat.
  change (bytes_4.msBy (0 + 1 + 1)) with 1%nat.
  change (bytes_4.msBy (0 + 1 + 1 + 1)) with 0%nat.
  rewrite !get_le_bytes by lia. reflexivity.
Qed.

(** [setOutputRate] as the sequence of register operations it performs. *)
Lemma setOutputRate_sequence rate (s : System D) :
  setOutputRate rate s =
  (normalWrite CTRL (register16 0x80 0x46) ;;
   delayMicroseconds 150 ;;
   extendedWrite ORATE (clamp_rate rate) ;;
   delayMicroseconds 50 ;;
   normalWrite CTRL (register16 0xC0 0x46) ;;
   delayMicroseconds 150) s.
Proof.
  unfold setOutputRate. rewrite orate_word. reflexivity.
Qed.

Lemma setOutputRate_emits o rate :
  emits (D := D) o (setOutputRate rate)
    [ BeginTransmission (address o);
      WriteByte 0x1E; WriteByte 0x80; WriteByte 0x46;
      EndTransmission;
      DelayMicroseconds 150;
      BeginTransmission (address o);
      WriteByte 0x02; WriteByte 0xFF; WriteByte 0xD0;
      WriteByte 0; WriteByte 0; WriteByte 0; WriteByte (clamp_rate rate);
      WriteByte 0x80;
      EndTransmission;
      DelayMicroseconds 10;
      RequestFrom (address o) 1;
      Read;
      DelayMicroseconds 50;
      BeginTransmission (address o);
      WriteByte 0x1E; WriteByte 0xC0; WriteByte 0x46;
      EndTransmission;
      DelayMicroseconds 150 ].
Proof.
  apply (emits_ext _ _ _ _ _ (setOutputRate_sequence rate)).
  destruct (byte_of_small (clamp_rate rate)) as [E0 [E1 [E2 E3]]];
    [pose proof (clamp_rate_range rate); lia|].
  pose proof (extendedWrite_emits o ORATE (clamp_rate rate)) as Hext.
  rewrite E0, E1, E2, E3 in Hext.
  eapply emits_conv.
  - eapply emits_bind; [apply normalWrite_emits | intros _].
    eapply emits_bind; [apply emits_delayMicroseconds | intros _].
    eapply emits_bind; [exact Hext | intros _].
    eapply emits_bind; [apply emits_delayMicroseconds | intros _].
    eapply emits_bind; [apply normalWrite_emits | intros _].
    apply emits_delayMicroseconds.
  - generalize (clamp_rate rate) (address o). intros r a. reflexivity.
Qed.

(** ** The shape of [start] *)

Lemma probe_run (s : System D) :
  probe s =
  (to_byte (fst (transmit (to_byte (address (sensor s))) [] (slave (wire s)))),
   mkSystem (sensor s)
     (mkWire (to_byte (address (sensor s))) [] (rxBuffer (wire s))
        (snd (transmit (to_byte (address (sensor s))) [] (slave (wire s))))
        (calls (wire s) ++
         [BeginTransmission (address (sensor s)); EndTransmission]))).
Proof.
  cbv [probe bind this Wire_beginTransmission Wire_endTransmission on_wire record
       wire sensor txAddress txBuffer rxBuffer slave calls].
  destruct s as [o w]. destruct w as [ta tb rb d c].
  destruct (transmit (to_byte (address o)) [] d) as [st d'].
  cbv [fst snd]. rewrite <- app_assoc. reflexivity.
Qed.

Lemma start_split address_ (s : System D) :
  start address_ s =
  (let (error, s1) := probe s in
   if negb (error =? 0) then (set_processorState 4 ;; ret error) s1
   else (set_address (to_int16 address_) ;;
         v <- normalRead STA ;;
         x <- extendedRead ORATE ;;
         start_finish v x ;;
         ret error) s1).
Proof.
  cbv [start probe start_finish bind this Wire_beginTransmission
       Wire_endTransmission on_wire record set_address set_processorState
       set_outputRate delay ret
       wire sensor txAddress txBuffer rxBuffer slave calls].
  destruct s as [o w]. destruct w as [ta tb rb d c].
  destruct (transmit (to_byte (address o)) [] d) as [st d'].
  destruct (negb (to_byte st =? 0)); [reflexivity|].
  destruct (normalRead STA _) as [v s2].
  destruct (extendedRead ORATE s2) as [x s3]. reflexivity.
Qed.

Lemma start_failed address_ (s : System D) :
  fst (probe s) <> 0 ->
  start address_ s = (fst (probe s), snd (set_processorState 4 (snd (probe s)))).
Proof.
  intros Hp. rewrite start_split. destruct (probe s) as [error s1].
  cbn [fst snd] in *. apply Z.eqb_neq in Hp. rewrite Hp. reflexivity.
Qed.

Lemma start_ok address_ (s : System D) :
  fst (probe s) = 0 ->
  start address_ s =
  (0, snd (start_finish (fst (fst (start_reads address_ s)))
                        (snd (fst (start_reads address_ s)))
                        (snd (start_reads address_ s)))).
Proof.
  intros Hp. rewrite start_split. unfold start_reads. cbv zeta.
  unfold bind, set_address, ret.
  destruct (probe s) as [error s1].
  cbn [fst snd] in Hp. subst error. cbn [Z.eqb negb].
  destruct (normalRead STA _) as [v s2].
  destruct (extendedRead ORATE s2) as [x s3]. cbn [fst snd].
  destruct (start_finish v x s3) as [u s4]. reflexivity.
Qed.

Lemma start_finish_run v x (s : System D) :
  start_finish v x s =
  (tt, mkSystem
         (mkA1335 (address (sensor s))
            (switch_processing_status (byte_of 0 v) (processorState (sensor s)))
            (byte_of 0 x))
         (record (Delay 1) (wire s))).
Proof.
  unfold start_finish, bytes_2.rd, bytes_4.rd, bytes_2.of_int, bytes_4.of_int,
    bytes_2.bytes, bytes_4.bytes.
  change (bytes_2.msBy 1) with 0%nat. change (bytes_4.msBy 3) with 0%nat.
  rewrite !get_le_bytes by lia. reflexivity.
Qed.

Lemma probe_preserves : preserves_sensor (D := D) probe.
Proof. unfold probe. frame. Qed.

Lemma start_reads_sensor address_ (s : System D) :
  sensor (snd (start_reads address_ s)) =
  mkA1335 (to_int16 address_) (processorState (sensor s)) (outputRate (sensor s)).
Proof.
  unfold start_reads. cbv zeta. unfold bind, set_address, ret.
  pose proof (probe_preserves s) as Hp. destruct (probe s) as [e s1].
  cbn [snd] in Hp.
  match goal with
  | |- context [normalRead STA ?s2] =>
      pose proof (normalRead_preserves STA s2) as Hn;
      destruct (normalRead STA s2) as [v s3]
  end.
  pose proof (extendedRead_preserves ORATE s3) as He.
  destruct (extendedRead ORATE s3) as [x s4].
  cbn [snd sensor] in *. rewrite He, Hn, Hp. reflexivity.
Qed.

(** The driver object after [start], in both outcomes of the probe. *)
Lemma start_sensor address_ (s : System D) :
  sensor (snd (start address_ s)) =
  if fst (probe s) =? 0 then
    mkA1335 (to_int16 address_)
      (switch_processing_status (byte_of 0 (fst (fst (start_reads address_ s))))
         (processorState (sensor s)))
      (byte_of 0 (snd (fst (start_reads address_ s))))
  else
    mkA1335 (address (sensor s)) 4 (outputRate (sensor s)).
Proof.
  destruct (fst (probe s) =? 0) eqn:E.
  - apply Z.eqb_eq in E. rewrite (start_ok _ _ E), start_finish_run.
    cbn [snd sensor]. rewrite start_reads_sensor. reflexivity.
  - apply Z.eqb_neq in E. rewrite (start_failed _ _ E).
    unfold set_processorState. cbn [snd sensor].
    rewrite probe_preserves. reflexivity.
Qed.

(** ** Calls are only ever appended *)

Lemma appends_emits A (c : M D A) l : (forall o, emits o c l) -> appends c.
Proof. intros Hc s. exists l. apply (Hc (sensor s) s eq_refl). Qed.

Lemma appends_ret A (a : A) : appends (D := D) (ret a).
Proof. intros s. exists []. simpl. rewrite app_nil_r. reflexivity. Qed.

Lemma appends_bind A B (c : M D A) (k : A -> M D B) :
  appends c -> (forall a, appends (k a)) -> appends (bind c k).
Proof.
  intros Hc Hk s. unfold bind. destruct (Hc s) as [l1 H1].
  destruct (c s) as [a s1]. cbn [snd] in H1.
  destruct (Hk a s1) as [l2 H2]. exists (l1 ++ l2).
  rewrite H2, H1, app_assoc. reflexivity.
Qed.

Lemma appends_if A (b : bool) (c1 c2 : M D A) :
  appends c1 -> appends c2 -> appends (if b then c1 else c2).
Proof. destruct b; auto. Qed.

Lemma appends_for L (body : Z -> L -> M D L) (n : nat) :
  (forall i l, appends (body i l)) -> forall i l, appends (for_ i n body l).
Proof.
  intros Hbody. induction n as [|n IH]; intros i l; cbn [for_].
  - apply appends_ret.
  - apply appends_bind; [apply Hbody | intros l'; apply IH].
Qed.

Lemma appends_this : appends (D := D) this.
Proof. intros s. exists []. simpl. rewrite app_nil_r. reflexivity. Qed.

Lemma appends_available : appends (D := D) Wire_available.
Proof. intros s. exists [Available]. reflexivity. Qed.

Ltac trace :=
  repeat first
    [ apply appends_ret
    | apply appends_this
    | apply appends_available
    | apply (appends_emits _ _ _ (fun o => emits_beginTransmission o _))
    | apply (appends_emits _ _ _ (fun o => emits_write o _))
    | apply (appends_emits _ _ _ emits_endTransmission)
    | apply (appends_emits _ _ _ (fun o => emits_requestFrom o _ _))
    | apply (appends_emits _ _ _ emits_read)
    | apply (appends_emits _ _ _ (fun o => emits_delayMicroseconds o _))
    | apply appends_if
    | apply appends_for; intros
    | apply appends_bind; [|intro] ].

Lemma normalRead_appends reg : appends (normalRead reg).
Proof. unfold normalRead. trace. Qed.

Lemma extendedRead_appends reg : appends (extendedRead reg).
Proof. unfold extendedRead. trace. Qed.

Lemma appends_after_begin a B (k : unit -> M D B) :
  (forall u, appends (k u)) ->
  forall s, exists rest,
    calls (wire (snd (bind (Wire_beginTransmission a) k s))) =
    calls (wire s) ++ BeginTransmission a :: rest.
Proof.
  intros Hk s. unfold bind.
  destruct (emits_beginTransmission (sensor s) a s eq_refl) as [Hc _].
  destruct (Wire_beginTransmission a s) as [u s1]. cbn [snd] in Hc.
  destruct (Hk u s1) as [l Hl]. exists l.
  rewrite Hl, Hc, <- app_assoc. reflexivity.
Qed.

(** [normalRead] opens its transaction at the cached address. *)
Lemma normalRead_first reg (s : System D) :
  exists rest,
    calls (wire (snd (normalRead reg s))) =
    calls (wire s) ++ BeginTransmission (address (sensor s)) :: rest.
Proof.
  unfold normalRead. unfold bind at 1. unfold this. cbv beta iota.
  apply appends_after_begin. intros u. trace.
Qed.

(** On a successful probe the register reads go to the new address. *)
Lemma start_calls_ok address_ (s : System D) :
  fst (probe s) = 0 ->
  exists rest,
    calls (wire (snd (start address_ s))) =
    calls (wire s) ++
    [ BeginTransmission (address (sensor s)); EndTransmission;
      BeginTransmission (to_int16 address_) ] ++ rest.
Proof.
  intros Hp. rewrite (start_ok _ _ Hp), start_finish_run.
  cbn [snd wire record calls].
  unfold start_reads. cbv zeta. unfold bind at 1. rewrite probe_run.
  unfold bind at 1. unfold set_address. cbv beta iota. cbn [wire sensor].
  unfold bind.
  match goal with
  | |- context [normalRead STA ?s1] =>
      destruct (normalRead_first STA s1) as [r1 H1];
      destruct (normalRead STA s1) as [v s2]
  end.
  destruct (extendedRead_appends ORATE s2) as [r2 H2].
  destruct (extendedRead ORATE s2) as [x s3].
  cbn [snd fst wire calls sensor address ret] in *.
  exists (r1 ++ r2 ++ [Delay 1]).
  rewrite H2, H1. rewrite <- !app_assoc. reflexivity.
Qed.

Lemma start_calls_failed address_ (s : System D) :
  fst (probe s) <> 0 ->
  calls (wire (snd (start address_ s))) =
  calls (wire s) ++ [BeginTransmission (address (sensor s)); EndTransmission].
Proof.
  intros Hp. rewrite (start_failed _ _ Hp). unfold set_processorState.
  cbn [snd wire]. rewrite probe_run. reflexivity.
Qed.

(** ** What a register read returns *)

Lemma normalRead_split reg (s : System D) :
  normalRead reg s =
  (normalRead_request reg ;;
   data <- for_ 0 2 (fun i data =>
             n <- Wire_available ;;
             if n =? 0 then ret data
             else b <- Wire_read ;; ret (bytes_2.wr (bytes_2.msBy i) b data))
           bytes_2.new ;;
   ret (bytes_2.in_ data)) s.
Proof.
  unfold normalRead, normalRead_request, bind, this.
  repeat match goal with
         | |- context [let (_, _) := ?e in _] => destruct e
         end.
  reflexivity.
Qed.

(** When the device delivers the two bytes [hi], [lo] (in this order),
    the register value is [hi * 256 + lo] read as an [int16_t]. *)
Lemma normalRead_received reg (s : System D) hi lo :
  rxBuffer (wire (snd (normalRead_request reg s))) = [hi; lo] ->
  0 <= hi < 256 -> 0 <= lo < 256 ->
  fst (normalRead reg s) = register16 hi lo.
Proof.
  intros Hrx Hhi Hlo. rewrite normalRead_split. unfold bind at 1.
  destruct (normalRead_request reg s) as [u s1]. cbn [snd] in Hrx.
  destruct s1 as [o1 w1]. destruct w1 as [ta tb rb d c].
  cbn [wire rxBuffer] in Hrx. subst rb.
  cbv [bind for_ Wire_available Wire_read on_wire record ret
       wire sensor txAddress txBuffer rxBuffer slave calls length
       Z.of_nat Pos.of_succ_nat Pos.succ Z.eqb fst snd].
  unfold bytes_2.in_, bytes_2.wr, bytes_2.new, register16, bytes_2.bytes.
  change (le_bytes 2 0) with [0; 0].
  change (bytes_2.msBy 0) with 1%nat. change (bytes_2.msBy (0 + 1)) with 0%nat.
  cbn [set le_value]. rewrite !to_byte_small by lia. f_equal. lia.
Qed.

Lemma readAngleRaw_run (s : System D) :
  readAngleRaw s = (angle_code (fst (normalRead ANG s)), snd (normalRead ANG s)).
Proof.
  unfold readAngleRaw, angle_code, bind.
  destruct (normalRead ANG s) as [v s1]. cbn [fst snd].
  destruct (parityCheck (bytes_2.of_int v) =? 0); reflexivity.
Qed.

Lemma readAngle_run (s : System D) :
  readAngle s =
  ((to_double (fst (readAngleRaw s)) * 360 / 4096)%float, snd (readAngleRaw s)).
Proof.
  unfold readAngle, bind. destruct (readAngleRaw s) as [raw s1]. reflexivity.
Qed.

Lemma normalRead_range reg (s : System D) :
  -32768 <= fst (normalRead reg s) < 32768.
Proof.
  rewrite normalRead_split. unfold bind, ret.
  destruct (normalRead_request reg s) as [u s1].
  destruct (for_ _ _ _ _ s1) as [data s2]. cbn [fst].
  apply to_int16_range.
Qed.

(** ** The claims on an arbitrary device *)


(** C4. When the probe transaction of [start] fails, [start] returns the
    transport's status code, sets [processorState] to 4, leaves [address]
    and [outputRate] as they were, and the only calls made on the bus are
    the [beginTransmission] / [endTransmission] of the probe. *)
Theorem start_probe_failure address_ (s : System D) :
  fst (probe s) <> 0 ->
  fst (start address_ s) = fst (probe s) /\
  processorState (sensor (snd (start address_ s))) = 4 /\
  address (sensor (snd (start address_ s))) = address (sensor s) /\
  outputRate (sensor (snd (start address_ s))) = outputRate (sensor s) /\
  wire (snd (start address_ s)) = wire (snd (probe s)) /\
  calls (wire (snd (start address_ s))) =
    calls (wire s) ++ [BeginTransmission (address (sensor s)); EndTransmission].
Proof.
  intros Hp. pose proof (start_calls_failed address_ s Hp) as Hcalls.
  pose proof (start_sensor address_ s) as Hsensor.
  apply Z.eqb_neq in Hp. rewrite Hp in Hsensor. apply Z.eqb_neq in Hp.
  rewrite Hsensor. cbn [processorState address outputRate].
  rewrite (start_failed _ _ Hp) in *. cbn [fst snd] in *.
  repeat split; try reflexivity. exact Hcalls.
Qed.

(** C5. After a successful probe, [start] derives [processorState] from
    the second byte of the status word it reads: status 0000 gives 0
    (booting), status 0001 gives 1 (idle) when the phase is 0 and 2
    (running) otherwise, status 1110 gives 3 (self test), and any other
    status leaves [processorState] as it was before the call. *)
Theorem start_processor_state_table address_ (s : System D) :
  fst (probe s) = 0 ->
  let byte1 := byte_of 0 (fst (fst (start_reads address_ s))) in
  let processing_status := Z.shiftr (Z.land byte1 0xF0) 4 in
  let processing_phase := Z.land byte1 0x0F in
  let before := processorState (sensor s) in
  let after := processorState (sensor (snd (start address_ s))) in
  (processing_status = 0 -> after = 0) /\
  (processing_status = 1 -> processing_phase = 0 -> after = 1) /\
  (processing_status = 1 -> processing_phase <> 0 -> after = 2) /\
  (processing_status = 14 -> after = 3) /\
  (processing_status <> 0 -> processing_status <> 1 ->
   processing_status <> 14 -> after = before).
Proof.
  intros Hp. cbv zeta. rewrite start_sensor.
  apply Z.eqb_eq in Hp. rewrite Hp. cbn [processorState].
  apply switch_processing_status_table.
Qed.

(** C6. Whatever the rate and whatever the device answers, [setOutputRate]
    makes exactly these calls, in this order: the idle-mode pair written to
    CTRL, 150 us; the extended write of the clamped rate to ORATE (with
    its own 10 us pause and one-byte status read-back), 50 us; the run-mode
    pair written to CTRL, 150 us.  They amount to four bus transactions
    (three write transactions and one read request), none repeated. *)
Theorem setOutputRate_call_sequence rate (s : System D) :
  let a := address (sensor s) in
  let sequence :=
    [ BeginTransmission a;
      WriteByte 0x1E; WriteByte 0x80; WriteByte 0x46;
      EndTransmission;
      DelayMicroseconds 150;
      BeginTransmission a;
      WriteByte 0x02; WriteByte 0xFF; WriteByte 0xD0;
      WriteByte 0; WriteByte 0; WriteByte 0; WriteByte (clamp_rate rate);
      WriteByte 0x80;
      EndTransmission;
      DelayMicroseconds 10;
      RequestFrom a 1;
      Read;
      DelayMicroseconds 50;
      BeginTransmission a;
      WriteByte 0x1E; WriteByte 0xC0; WriteByte 0x46;
      EndTransmission;
      DelayMicroseconds 150 ] in
  calls (wire (snd (setOutputRate rate s))) = calls (wire s) ++ sequence /\
  transactions sequence = 4%nat /\
  0 <= clamp_rate rate <= 7.
Proof.
  cbv zeta. split; [|split].
  - apply (setOutputRate_emits (sensor s) rate s eq_refl).
  - reflexivity.
  - apply clamp_rate_range.
Qed.

(** C10. [start] probes the address cached before the call, not its
    argument; the argument (an [int16_t]) becomes the cached address
    exactly when the probe succeeds, and the register reads that follow
    then go to the new address; a driver fresh from its constructor probes
    0x0C. *)
Theorem start_probes_cached_address address_ (s : System D) :
  (exists rest,
     calls (wire (snd (start address_ s))) =
     calls (wire s) ++
     BeginTransmission (address (sensor s)) :: EndTransmission :: rest) /\
  address (sensor (snd (start address_ s))) =
    (if fst (probe s) =? 0 then to_int16 address_ else address (sensor s)) /\
  (-32768 <= address_ < 32768 -> to_int16 address_ = address_) /\
  (fst (probe s) = 0 ->
   exists rest,
     calls (wire (snd (start address_ s))) =
     calls (wire s) ++
     [ BeginTransmission (address (sensor s)); EndTransmission;
       BeginTransmission (to_int16 address_) ] ++ rest) /\
  (sensor s = A1335_new ->
   exists rest,
     calls (wire (snd (start address_ s))) =
     calls (wire s) ++ BeginTransmission 0x0C :: EndTransmission :: rest).
Proof.
  assert (Hfirst : exists rest,
     calls (wire (snd (start address_ s))) =
     calls (wire s) ++
     BeginTransmission (address (sensor s)) :: EndTransmission :: rest).
  { destruct (Z.eq_dec (fst (probe s)) 0) as [Hp|Hp].
    - destruct (start_calls_ok address_ s Hp) as [rest Hrest].
      exists (BeginTransmission (to_int16 address_) :: rest). exact Hrest.
    - exists []. apply start_calls_failed. exact Hp. }
  split; [exact Hfirst|]. split; [|split; [|split]].
  - rewrite start_sensor. destruct (fst (probe s) =? 0); reflexivity.
  - apply to_int16_small.
  - apply start_calls_ok.
  - intros Hnew. rewrite Hnew in Hfirst. exact Hfirst.
Qed.

(** X20. A constructed driver caches address 0x0C, processorState 4 and
    outputRate 0.  The getters, the sensor reads, [readOutputRate] and the
    four register primitives leave the three cached fields as they are;
    [start] sets processorState to 4 on a failed probe, and on a
    successful probe sets address to its [int16_t] argument,
    processorState by the status switch and outputRate from the
    output-rate word. *)
Theorem cached_state_frame :
  A1335_new = mkA1335 0x0C 4 0 /\
  preserves_sensor (D := D) getAddress /\
  preserves_sensor (D := D) getProcessorState /\
  preserves_sensor (D := D) getOutputRate /\
  preserves_sensor (D := D) readAngle /\
  preserves_sensor (D := D) readAngleRaw /\
  preserves_sensor (D := D) readTemp /\
  preserves_sensor (D := D) readTempRaw /\
  preserves_sensor (D := D) readField /\
  preserves_sensor (D := D) readFieldRaw /\
  preserves_sensor (D := D) readOutputRate /\
  (forall reg, preserves_sensor (D := D) (normalRead reg)) /\
  (forall reg data, preserves_sensor (D := D) (normalWrite reg data)) /\
  (forall reg, preserves_sensor (D := D) (extendedRead reg)) /\
  (forall reg data, preserves_sensor (D := D) (extendedWrite reg data)) /\
  (forall address_ (s : System D),
     sensor (snd (start address_ s)) =
     if fst (probe s) =? 0 then
       mkA1335 (to_int16 address_)
         (switch_processing_status
            (byte_of 0 (fst (fst (start_reads address_ s))))
            (processorState (sensor s)))
         (byte_of 0 (snd (fst (start_reads address_ s))))
     else
       mkA1335 (address (sensor s)) 4 (outputRate (sensor s))).
Proof.
  split; [reflexivity|].
  repeat match goal with
         | |- _ /\ _ => split
         end;
    try exact start_sensor; intros;
    try (unfold readAngle, readTemp, readField, readOutputRate); frame.
Qed.

(** C2 (as the code has it).  The output rate travels in the
    least-significant byte of the 4-byte ORATE word, [msBy(3)]: [start]
    caches [outputRate] from the least-significant byte of the word
    [extendedRead(ORATE)] returned, and [setOutputRate] hands
    [extendedWrite(ORATE, .)] the word whose least-significant byte is the
    clamped rate and whose other three bytes are zero. *)
Theorem output_rate_low_byte :
  bytes_4.msBy 3 = bytes_4.lsBy 0 /\
  (forall address_ (s : System D),
     fst (probe s) = 0 ->
     outputRate (sensor (snd (start address_ s))) =
     byte_of 0 (snd (fst (start_reads address_ s)))) /\
  (forall rate (s : System D),
     setOutputRate rate s =
     (normalWrite CTRL (register16 0x80 0x46) ;;
      delayMicroseconds 150 ;;
      extendedWrite ORATE (clamp_rate rate) ;;
      delayMicroseconds 50 ;;
      normalWrite CTRL (register16 0xC0 0x46) ;;
      delayMicroseconds 150) s) /\
  (forall rate,
     byte_of 0 (clamp_rate rate) = clamp_rate rate /\
     byte_of 1 (clamp_rate rate) = 0 /\
     byte_of 2 (clamp_rate rate) = 0 /\
     byte_of 3 (clamp_rate rate) = 0).
Proof.
  split; [reflexivity|]. split; [|split].
  - intros address_ s Hp. rewrite start_sensor.
    apply Z.eqb_eq in Hp. rewrite Hp. reflexivity.
  - exact setOutputRate_sequence.
  - intros rate. apply byte_of_small.
    pose proof (clamp_rate_range rate). lia.
Qed.

(** C8 (as the code has it).  When the angle register reads back as the
    byte pair 0xA0, 0x00 (most-significant byte first), the register value
    has even parity: the reading is not valid, [readAngleRaw] returns 0
    from its error path and [readAngle] returns 0.0 degrees. *)
Theorem angle_register_A000 (s : System D) :
  rxBuffer (wire (snd (normalRead_request ANG s))) = [0xA0; 0x00] ->
  fst (normalRead ANG s) = register16 0xA0 0x00 /\
  xor_bits16 (fst (normalRead ANG s)) = false /\
  angle_valid (fst (normalRead ANG s)) = false /\
  fst (readAngleRaw s) = 0 /\
  fst (readAngle s) = 0%float.
Proof.
  intros Hrx.
  assert (Hv : fst (normalRead ANG s) = register16 0xA0 0x00).
  { apply normalRead_received; [exact Hrx | lia | lia]. }
  rewrite readAngle_run, readAngleRaw_run. cbn [fst]. rewrite Hv.
  repeat split; reflexivity.
Qed.

End Runs.

(** ** Runs against the scripted device *)

(** The device acknowledges everything and answers the status read with
    0x80 0x10 and the output-rate read with status 0 and data 07 00 00 00. *)
Definition answering : System Script :=
  boot (mkScript [] [[0x80; 0x10]; [0; 7; 0; 0; 0]]).

(** The device does not acknowledge its address (status code 2). *)
Definition absent : System Script := boot (mkScript [2] []).

(** The device answers the first register read with 0xA0 0x00. *)
Definition angle_A000 : System Script := boot (mkScript [] [[0xA0; 0x00]]).

(** A device that acknowledges everything and never delivers a byte. *)
Definition silent : System Script := boot (mkScript [] []).

Lemma start_probe_failure_witness :
  fst (probe absent) <> 0 /\
  fst (start 0x0D absent) = 2 /\
  processorState (sensor (snd (start 0x0D absent))) = 4.
Proof.
  assert (Hp : fst (probe absent) <> 0) by (vm_compute; discriminate).
  destruct (start_probe_failure 0x0D absent Hp) as [Hret [Hstate _]].
  split; [exact Hp|]. split; [rewrite Hret; reflexivity | exact Hstate].
Defined.

Lemma start_processor_state_table_witness :
  fst (probe answering) = 0 /\
  processorState (sensor (snd (start 0x0D answering))) = 1.
Proof.
  assert (Hp : fst (probe answering) = 0) by reflexivity.
  destruct (start_processor_state_table 0x0D answering Hp) as [_ [Hidle _]].
  split; [exact Hp|]. apply Hidle; reflexivity.
Defined.

Lemma start_probes_cached_address_witness :
  sensor answering = A1335_new /\
  exists rest,
    calls (wire (snd (start 0x0D answering))) =
    calls (wire answering) ++ BeginTransmission 0x0C :: EndTransmission :: rest.
Proof.
  destruct (start_probes_cached_address 0x0D answering) as [_ [_ [_ [_ Hnew]]]].
  split; [reflexivity|]. apply Hnew. reflexivity.
Defined.

Lemma output_rate_low_byte_witness :
  fst (probe answering) = 0 /\
  outputRate (sensor (snd (start 0x0D answering))) =
  byte_of 0 (snd (fst (start_reads 0x0D answering))).
Proof.
  destruct (output_rate_low_byte (D := Script)) as [_ [Hstart _]].
  split; [reflexivity|]. apply Hstart. reflexivity.
Defined.

Lemma angle_register_A000_witness :
  rxBuffer (wire (snd (normalRead_request ANG angle_A000))) = [0xA0; 0x00] /\
  angle_valid (fst (normalRead ANG angle_A000)) = false /\
  fst (readAngle angle_A000) = 0%float.
Proof.
  assert (Hrx : rxBuffer (wire (snd (normalRead_request ANG angle_A000)))
                = [0xA0; 0x00]) by reflexivity.
  destruct (angle_register_A000 angle_A000 Hrx) as [_ [_ [Hvalid [_ Hdeg]]]].
  split; [exact Hrx|]. split; [exact Hvalid | exact Hdeg].
Defined.

(** C2, as stated, fails: the device returns the ORATE word 0x07000000,
    whose most-significant byte is 7, and [start] caches 0; and the word
    [setOutputRate(7)] writes has most-significant byte 0, not 7. *)
Lemma output_rate_most_significant_byte_counterexample :
  snd (fst (start_reads 0x0D answering)) = 0x07000000 /\
  byte_of 3 (snd (fst (start_reads 0x0D answering))) = 7 /\
  outputRate (sensor (snd (start 0x0D answering))) <>
    byte_of 3 (snd (fst (start_reads 0x0D answering))) /\
  byte_of 3 (clamp_rate 7) <> clamp_rate 7.
Proof.
  split; [reflexivity|]. split; [reflexivity|].
  split; vm_compute; discriminate.
Qed.

(** C7 at [setOutputRate(5)] on a fresh driver.  On every device, for
    every rate and state, [setOutputRate] leaves the cached [outputRate]
    at the value it had before the call.  A fresh driver that has just
    sent rate 5 to the ORATE register (data bytes 00 00 00 05) therefore
    still answers [getOutputRate] with 0, not with 5. *)
Theorem setOutputRate_leaves_cache_stale :
  (forall D (H : I2CSlave D) rate (s : System D),
     outputRate (sensor (snd (setOutputRate rate s))) = outputRate (sensor s)) /\
  (exists before after,
     calls (wire (snd (setOutputRate 5 silent))) =
     before ++
     [ WriteByte 0x02; WriteByte 0xFF; WriteByte 0xD0;
       WriteByte 0; WriteByte 0; WriteByte 0; WriteByte 5; WriteByte 0x80 ]
     ++ after) /\
  fst (getOutputRate (snd (setOutputRate 5 silent))) = 0 /\
  fst (getOutputRate (snd (setOutputRate 5 silent))) <> clamp_rate 5.
Proof.
  split; [|split; [|split]].
  - intros D H rate s. rewrite setOutputRate_preserves. reflexivity.
  - exists [ BeginTransmission 0x0C;
             WriteByte 0x1E; WriteByte 0x80; WriteByte 0x46;
             EndTransmission; DelayMicroseconds 150;
             BeginTransmission 0x0C ].
    eexists. vm_compute. reflexivity.
  - reflexivity.
  - vm_compute. discriminate.
Qed.

(** C8, as stated, fails: with 0xA0 0x00 read back, the reading is not
    valid. *)
Lemma angle_register_A000_counterexample :
  rxBuffer (wire (snd (normalRead_request ANG angle_A000))) = [0xA0; 0x00] /\
  ~ (fst (readAngle angle_A000) = 0%float /\
     angle_valid (fst (normalRead ANG angle_A000)) = true).
Proof.
  split; [reflexivity|]. intros [_ Hvalid]. vm_compute in Hvalid. discriminate.
Qed.

(** C3 at the call [setOutputRate(-1)].  The [byte] parameter receives
    255, the [rate < 0] branch does not fire and the rate is clamped to 7:
    the call behaves as [setOutputRate(7)] on every device, and writes a
    different ORATE word than [setOutputRate(0)]. *)
Theorem setOutputRate_minus_one :
  to_byte (-1) = 255 /\
  clamp_rate (-1) = 7 /\
  (forall D (H : I2CSlave D) (s : System D),
     setOutputRate (-1) s = setOutputRate 7 s) /\
  calls (wire (snd (setOutputRate (-1) silent))) <>
  calls (wire (snd (setOutputRate 0 silent))).
Proof.
  split; [reflexivity|]. split; [reflexivity|]. split.
  - intros D H s. rewrite !setOutputRate_sequence. reflexivity.
  - vm_compute. discriminate.
Qed.

(** * Further properties of the code *)

(** ** Byte arrays behind the integer view *)

Lemma le_bytes_length n : forall z, length (le_bytes n z) = n.
Proof. induction n as [|n IH]; intros z; simpl; [|rewrite IH]; reflexivity. Qed.

Lemma le_bytes_range n : forall z, Forall (fun b => 0 <= b < 256) (le_bytes n z).
Proof.
  induction n as [|n IH]; intros z; simpl; constructor.
  - apply Z.mod_pos_bound. lia.
  - apply IH.
Qed.

Lemma le_bytes_shift n : forall z k, le_bytes n (z + 256 ^ Z.of_nat n * k) = le_bytes n z.
Proof.
  induction n as [|n IH]; intros z k; [reflexivity|].
  cbn [le_bytes]. rewrite Nat2Z.inj_succ, Z.pow_succ_r by lia.
  replace (z + 256 * 256 ^ Z.of_nat n * k)
    with (z + (256 ^ Z.of_nat n * k) * 256) by ring.
  rewrite Z_mod_plus_full, Z.div_add by lia. rewrite IH. reflexivity.
Qed.

Lemma le_bytes_le_value l :
  Forall (fun b => 0 <= b < 256) l -> le_bytes (length l) (le_value l) = l.
Proof.
  induction 1 as [|b l Hb Hl IH]; [reflexivity|].
  cbn [length le_bytes le_value].
  replace (b + 256 * le_value l) with (b + le_value l * 256) by ring.
  rewrite Z_mod_plus_full, Z.div_add by lia.
  rewrite Z.mod_small, Z.div_small by lia. rewrite Z.add_0_l, IH. reflexivity.
Qed.

Lemma to_int16_shift z : exists k, to_int16 z = z + 256 ^ Z.of_nat 2 * k.
Proof.
  exists (- ((z + 32768) / 65536)). unfold to_int16.
  change (256 ^ Z.of_nat 2) with 65536. Z.div_mod_to_equations. lia.
Qed.

Lemma to_int32_shift z : exists k, to_int32 z = z + 256 ^ Z.of_nat 4 * k.
Proof.
  exists (- ((z + 2147483648) / 4294967296)). unfold to_int32.
  change (256 ^ Z.of_nat 4) with 4294967296. Z.div_mod_to_equations. lia.
Qed.

(** X1. [lsBy] and [msBy] never index outside the array: the index is the
    byte argument capped at N-1, [msBy] mirrors [lsBy], and an argument
    that is negative as an integer arrives as a large byte and is capped
    at N-1 too (the [n < 0] branches never fire). *)
Theorem byte_index_clamped (n : Z) :
  bytes_2.lsBy n = Z.to_nat (Z.min (to_byte n) 1) /\
  bytes_2.msBy n = (1 - bytes_2.lsBy n)%nat /\
  (bytes_2.lsBy n < 2)%nat /\
  bytes_4.lsBy n = Z.to_nat (Z.min (to_byte n) 3) /\
  bytes_4.msBy n = (3 - bytes_4.lsBy n)%nat /\
  (bytes_4.lsBy n < 4)%nat.
Proof.
  unfold bytes_2.lsBy, bytes_2.msBy, bytes_4.lsBy, bytes_4.msBy.
  pose proof (to_byte_range n) as Hn.
  destruct (to_byte n >? 1) eqn:E1; destruct (to_byte n <? 0) eqn:E0;
    destruct (to_byte n >? 3) eqn:E3; lia.
Qed.

(** X2. After construction from an integer [v], [lsBy(k)] reads byte [k]
    of [v] counted from the least-significant end and [msBy(k)] reads byte
    [N-1-k]: [msBy(0)] is the most-significant byte. *)
Theorem byte_views_of_integer (v k : Z) :
  (0 <= k < 2 ->
   bytes_2.rd (bytes_2.lsBy k) (bytes_2.of_int v) = byte_of k v /\
   bytes_2.rd (bytes_2.msBy k) (bytes_2.of_int v) = byte_of (1 - k) v) /\
  (0 <= k < 4 ->
   bytes_4.rd (bytes_4.lsBy k) (bytes_4.of_int v) = byte_of k v /\
   bytes_4.rd (bytes_4.msBy k) (bytes_4.of_int v) = byte_of (3 - k) v).
Proof.
  split; intros Hk.
  - assert (Hc : k = 0 \/ k = 1) by lia.
    destruct Hc as [-> | ->];
      unfold bytes_2.rd, bytes_2.of_int, bytes_2.bytes;
      split;
      match goal with
      | |- get ?c _ = _ =>
          let c' := eval vm_compute in c in change c with c'
      end; rewrite get_le_bytes by lia; reflexivity.
  - assert (Hc : k = 0 \/ k = 1 \/ k = 2 \/ k = 3) by lia.
    destruct Hc as [-> | [-> | [-> | ->]]];
      unfold bytes_4.rd, bytes_4.of_int, bytes_4.bytes;
      split;
      match goal with
      | |- get ?c _ = _ =>
          let c' := eval vm_compute in c in change c with c'
      end; rewrite get_le_bytes by lia; reflexivity.
Qed.

Lemma byte_views_of_integer_witness :
  bytes_2.rd (bytes_2.msBy 0) (bytes_2.of_int 0x1234) = 0x12 /\
  bytes_4.rd (bytes_4.msBy 3) (bytes_4.of_int 0x12345678) = 0x78.
Proof.
  split.
  - destruct (byte_views_of_integer 0x1234 0) as [H2 _].
    destruct H2 as [_ Hms]; [lia|]. rewrite Hms. reflexivity.
  - destruct (byte_views_of_integer 0x12345678 3) as [_ H4].
    destruct H4 as [_ Hms]; [lia|]. rewrite Hms. reflexivity.
Defined.

(** X3. The integer view loses nothing: rebuilding the object from
    [in()] of a well-formed byte array gives the same array back, for
    both widths. *)
Theorem integer_view_round_trip :
  (forall r, byte_array 2 (bytes_2.bytes r) ->
             bytes_2.of_int (bytes_2.in_ r) = r) /\
  (forall r, byte_array 4 (bytes_4.bytes r) ->
             bytes_4.of_int (bytes_4.in_ r) = r).
Proof.
  split; intros [a] [Hlen Hrange]; cbn [bytes_2.bytes bytes_4.bytes] in *.
  - unfold bytes_2.of_int, bytes_2.in_, bytes_2.bytes.
    destruct (to_int16_shift (le_value a)) as [k ->].
    rewrite le_bytes_shift, <- Hlen, le_bytes_le_value by exact Hrange.
    reflexivity.
  - unfold bytes_4.of_int, bytes_4.in_, bytes_4.bytes.
    destruct (to_int32_shift (le_value a)) as [k ->].
    rewrite le_bytes_shift, <- Hlen, le_bytes_le_value by exact Hrange.
    reflexivity.
Qed.

Lemma integer_view_round_trip_witness :
  byte_array 2 [0x34; 0x92] /\
  bytes_2.of_int (bytes_2.in_ (bytes_2.mk [0x34; 0x92])) = bytes_2.mk [0x34; 0x92].
Proof.
  assert (Hwf : byte_array 2 [0x34; 0x92]).
  { split; [reflexivity|]. repeat constructor; lia. }
  split; [exact Hwf|].
  apply (proj1 integer_view_round_trip (bytes_2.mk [0x34; 0x92]) Hwf).
Defined.

(** X4. The rate clamp for every argument: the byte the parameter receives,
    capped at 7; [setOutputRate] with any argument is [setOutputRate] with
    that capped byte, on every device. *)
Theorem setOutputRate_clamps rate :
  clamp_rate rate = Z.min (to_byte rate) 7 /\
  forall D (H : I2CSlave D) (s : System D),
    setOutputRate rate s = setOutputRate (Z.min (to_byte rate) 7) s.
Proof.
  assert (Hc : clamp_rate rate = Z.min (to_byte rate) 7).
  { unfold clamp_rate. pose proof (to_byte_range rate).
    destruct (to_byte rate <? 0) eqn:E0; [lia|].
    destruct (to_byte rate >=? 8) eqn:E8; lia. }
  split; [exact Hc|]. intros D H s.
  rewrite !setOutputRate_sequence.
  rewrite (clamp_rate_low (Z.min (to_byte rate) 7)), Hc; [reflexivity|].
  pose proof (to_byte_range rate). lia.
Qed.

(** ** Masked registers *)

Lemma masked_code_checked :
  all_from (-128) 256 (fun hi => all_from (256 * hi) 256 (fun v =>
    masked_code 0x0F v =? Z.land (to_uint16 v) 0x0FFF))
  = true.
Proof. vm_cast_no_check (eq_refl true). Qed.

Lemma masked_code_spec v :
  -32768 <= v < 32768 -> masked_code 0x0F v = Z.land (to_uint16 v) 0x0FFF.
Proof.
  intros Hv.
  pose proof (all_from_pages _ _ _ _ masked_code_checked (v / 256) v) as Hok.
  cbv beta in Hok. apply Z.eqb_eq. apply Hok;
    change (Z.of_nat 256) with 256; Z.div_mod_to_equations; lia.
Qed.

Lemma low12_range x : 0 <= Z.land x 0x0FFF < 4096.
Proof.
  change 4095 with (Z.ones 12). rewrite Z.land_ones by lia.
  apply Z.mod_pos_bound. reflexivity.
Qed.

Section Registers.

Context {D : Type} `{I2CSlave D}.

Lemma readTempRaw_run (s : System D) :
  readTempRaw s = (masked_code 0x0F (fst (normalRead TSEN s)), snd (normalRead TSEN s)).
Proof.
  unfold readTempRaw, masked_code, bind.
  destruct (normalRead TSEN s) as [v s1]. reflexivity.
Qed.

Lemma readFieldRaw_run (s : System D) :
  readFieldRaw s = (masked_code 0x0F (fst (normalRead FIELD s)), snd (normalRead FIELD s)).
Proof.
  unfold readFieldRaw, masked_code, bind.
  destruct (normalRead FIELD s) as [v s1]. reflexivity.
Qed.

Lemma readTempRaw_bound (s : System D) : 0 <= fst (readTempRaw s) < 4096.
Proof.
  rewrite readTempRaw_run. cbn [fst].
  rewrite masked_code_spec by apply normalRead_range. apply low12_range.
Qed.

Lemma readFieldRaw_bound (s : System D) : 0 <= fst (readFieldRaw s) < 4096.
Proof.
  rewrite readFieldRaw_run. cbn [fst].
  rewrite masked_code_spec by apply normalRead_range. apply low12_range.
Qed.

Lemma readAngleRaw_bound (s : System D) : 0 <= fst (readAngleRaw s) < 4096.
Proof.
  rewrite readAngleRaw_run. cbn [fst].
  destruct (angle_code_spec _ (normalRead_range ANG s)) as [_ ->].
  destruct (xor_bits16 _); [apply low12_range | lia].
Qed.

(** X5. [readTempRaw] and [readFieldRaw] return the low 12 bits of the
    register value they read, whatever its top four bits and without any
    parity check; the result is below 4096 and the bus is left as the
    register read left it. *)
Theorem masked_register_reads (s : System D) :
  (fst (readTempRaw s) = Z.land (to_uint16 (fst (normalRead TSEN s))) 0x0FFF /\
   0 <= fst (readTempRaw s) < 4096 /\
   snd (readTempRaw s) = snd (normalRead TSEN s)) /\
  (fst (readFieldRaw s) = Z.land (to_uint16 (fst (normalRead FIELD s))) 0x0FFF /\
   0 <= fst (readFieldRaw s) < 4096 /\
   snd (readFieldRaw s) = snd (normalRead FIELD s)).
Proof.
  pose proof (readTempRaw_bound s). pose proof (readFieldRaw_bound s).
  rewrite readTempRaw_run, readFieldRaw_run in *. cbn [fst snd] in *.
  rewrite !masked_code_spec in * by apply normalRead_range.
  repeat split; lia.
Qed.

(** X6. [readAngleRaw] always returns a 12-bit code, and a returned 0 is
    ambiguous: it is returned exactly when the register has even parity
    or its 12 angle bits are all zero. *)
Theorem readAngleRaw_zero_is_ambiguous (s : System D) :
  0 <= fst (readAngleRaw s) < 4096 /\
  (fst (readAngleRaw s) = 0 <->
   xor_bits16 (fst (normalRead ANG s)) = false \/
   Z.land (to_uint16 (fst (normalRead ANG s))) 0x0FFF = 0).
Proof.
  split; [apply readAngleRaw_bound|].
  rewrite readAngleRaw_run. cbn [fst].
  destruct (angle_code_spec _ (normalRead_range ANG s)) as [_ ->].
  destruct (xor_bits16 _).
  - split; [auto | intros [Hx|Hz]; [discriminate | exact Hz]].
  - split; auto.
Qed.

End Registers.

(** ** Unit conversions *)

Lemma conversions_checked :
  all_from 0 16 (fun hi => all_from (256 * hi) 256 (fun raw =>
    (PrimFloat.leb 0 (to_double raw * 360 / 4096) &&
     PrimFloat.ltb (to_double raw * 360 / 4096) 360 &&
     PrimFloat.leb 0 (to_double raw / 8) &&
     PrimFloat.ltb (to_double raw / 8) 512 &&
     PrimFloat.leb 0 (to_double raw / 10000) &&
     PrimFloat.ltb (to_double raw / 10000) 0.5)%float))
  = true.
Proof. vm_cast_no_check (eq_refl true). Qed.

Lemma conversions_spec raw :
  0 <= raw < 4096 ->
  (PrimFloat.leb 0 (to_double raw * 360 / 4096) = true /\
   PrimFloat.ltb (to_double raw * 360 / 4096) 360 = true /\
   PrimFloat.leb 0 (to_double raw / 8) = true /\
   PrimFloat.ltb (to_double raw / 8) 512 = true /\
   PrimFloat.leb 0 (to_double raw / 10000) = true /\
   PrimFloat.ltb (to_double raw / 10000) 0.5 = true)%float.
Proof.
  intros Hraw.
  pose proof (all_from_pages _ _ _ _ conversions_checked (raw / 256) raw) as Hok.
  cbv beta in Hok.
  assert (Hhi : 0 <= raw / 256 < 0 + Z.of_nat 16).
  { change (Z.of_nat 16) with 16. Z.div_mod_to_equations. lia. }
  assert (Hlo : 256 * (raw / 256) <= raw < 256 * (raw / 256) + Z.of_nat 256).
  { change (Z.of_nat 256) with 256. Z.div_mod_to_equations. lia. }
  specialize (Hok Hhi Hlo).
  repeat (apply andb_true_iff in Hok; destruct Hok as [Hok ?]).
  repeat split; assumption.
Qed.

Section Conversions.

Context {D : Type} `{I2CSlave D}.

(** X7. [readAngle] is within [0, 360) degrees, [readTemp] within
    [0, 512) kelvin and [readField] within [0, 0.5) tesla, on every device
    and whatever the registers hold (IEEE comparisons on the returned
    doubles). *)
Theorem converted_readings_in_range (s : System D) :
  (PrimFloat.leb 0 (fst (readAngle s)) = true /\
   PrimFloat.ltb (fst (readAngle s)) 360 = true)%float /\
  (PrimFloat.leb 0 (fst (readTemp s)) = true /\
   PrimFloat.ltb (fst (readTemp s)) 512 = true)%float /\
  (PrimFloat.leb 0 (fst (readField s)) = true /\
   PrimFloat.ltb (fst (readField s)) 0.5 = true)%float.
Proof.
  pose proof (readTempRaw_bound s) as Ht.
  pose proof (readFieldRaw_bound s) as Hf.
  pose proof (readAngleRaw_bound s) as Ha.
  unfold readAngle, readTemp, readField, bind, ret.
  destruct (readAngleRaw s) as [a sa]. destruct (readTempRaw s) as [t st].
  destruct (readFieldRaw s) as [f sf]. cbn [fst] in *.
  destruct (conversions_spec a Ha) as [A1 [A2 _]].
  destruct (conversions_spec t Ht) as [_ [_ [T1 [T2 _]]]].
  destruct (conversions_spec f Hf) as [_ [_ [_ [_ [F1 F2]]]]].
  repeat split; assumption.
Qed.

End Conversions.

(** ** What the register operations put on the bus and take from it *)

Lemma to_byte_idem z : to_byte (to_byte z) = to_byte z.
Proof. unfold to_byte. apply Z.mod_mod. lia. Qed.

Lemma to_byte_byte_of k z : to_byte (byte_of k z) = byte_of k z.
Proof. unfold to_byte, byte_of. apply Z.mod_mod. lia. Qed.

Lemma register16_bytes data :
  -32768 <= data < 32768 -> register16 (byte_of 1 data) (byte_of 0 data) = data.
Proof.
  intros Hd. unfold register16, byte_of, to_int16. simpl Z.pow.
  rewrite Z.div_1_r. Z.div_mod_to_equations. lia.
Qed.

Lemma register32_bytes data :
  -2147483648 <= data < 2147483648 ->
  register32 (byte_of 3 data) (byte_of 2 data) (byte_of 1 data) (byte_of 0 data)
  = data.
Proof.
  intros Hd.
  pose proof (bytes_4_round_trip data Hd) as Hrt.
  unfold bytes_4.in_, bytes_4.of_int, bytes_4.bytes in Hrt.
  rewrite <- Hrt at 5. unfold register32. f_equal.
  pose proof (get_le_bytes 4 0 data) as H0. pose proof (get_le_bytes 4 1 data) as H1.
  pose proof (get_le_bytes 4 2 data) as H2. pose proof (get_le_bytes 4 3 data) as H3.
  cbn [le_bytes le_value get nth Z.of_nat Pos.of_succ_nat Pos.succ] in *.
  rewrite <- H0, <- H1, <- H2, <- H3 by lia. ring.
Qed.

Section Bus.

Context {D : Type} `{I2CSlave D}.

Lemma requestFrom_rx a q (s : System D) :
  Forall (fun b => 0 <= b < 256) (rxBuffer (wire (snd (Wire_requestFrom a q s)))) /\
  (length (rxBuffer (wire (snd (Wire_requestFrom a q s)))) <= Z.to_nat q)%nat.
Proof.
  unfold Wire_requestFrom, on_wire. cbn [record slave wire].
  destruct (reply (to_byte a) q (slave (wire s))) as [data d].
  cbn [snd wire rxBuffer]. split.
  - apply Forall_forall. intros b Hb. apply in_map_iff in Hb.
    destruct Hb as [x [<- _]]. apply to_byte_range.
  - rewrite length_map. apply firstn_le_length.
Qed.

Lemma normalRead_request_rx reg (s : System D) :
  Forall (fun b => 0 <= b < 256)
    (rxBuffer (wire (snd (normalRead_request reg s)))) /\
  (length (rxBuffer (wire (snd (normalRead_request reg s)))) <= 2)%nat.
Proof.
  unfold normalRead_request, bind, this.
  repeat match goal with
         | |- context [let (_, _) := ?e in _] => destruct e
         end.
  apply (requestFrom_rx _ 2).
Qed.

Lemma extendedRead_request_rx reg (s : System D) :
  Forall (fun b => 0 <= b < 256)
    (rxBuffer (wire (snd (extendedRead_request reg s)))) /\
  (length (rxBuffer (wire (snd (extendedRead_request reg s)))) <= 5)%nat.
Proof.
  unfold extendedRead_request, bind, this.
  repeat match goal with
         | |- context [let (_, _) := ?e in _] => destruct e
         end.
  apply (requestFrom_rx _ 5).
Qed.

Lemma extendedRead_split reg (s : System D) :
  extendedRead reg s =
  (extendedRead_request reg ;;
   rstate <- Wire_read ;;
   data <- for_ 0 4 (fun i data =>
             n <- Wire_available ;;
             if n =? 0 then ret data
             else b <- Wire_read ;; ret (bytes_4.wr (bytes_4.msBy i) b data))
           bytes_4.new ;;
   ret (bytes_4.in_ data)) s.
Proof.
  unfold extendedRead, extendedRead_request, bind, this.
  repeat match goal with
         | |- context [let (_, _) := ?e in _] => destruct e
         end.
  reflexivity.
Qed.

Ltac receive :=
  cbv [bind for_ Wire_available Wire_read on_wire record ret
       wire sensor txAddress txBuffer rxBuffer slave calls length
       Z.of_nat Pos.of_succ_nat Pos.succ Z.eqb fst snd].

(** The bytes [normalRead] has stored when its loop ends. *)
Lemma normalRead_value reg (s : System D) :
  fst (normalRead reg s) =
  register16 (nth 0 (rxBuffer (wire (snd (normalRead_request reg s)))) 0)
             (nth 1 (rxBuffer (wire (snd (normalRead_request reg s)))) 0).
Proof.
  destruct (normalRead_request_rx reg s) as [Hrange Hlen].
  rewrite normalRead_split. unfold bind at 1.
  destruct (normalRead_request reg s) as [u s1]. cbn [snd] in *.
  destruct s1 as [o1 w1]. destruct w1 as [ta tb rb d c].
  cbn [wire rxBuffer] in *.
  destruct rb as [|hi [|lo [|x rest]]]; cbn [length] in Hlen; [| | |lia];
    receive;
    unfold bytes_2.in_, bytes_2.wr, bytes_2.new, register16, bytes_2.bytes;
    change (le_bytes 2 0) with [0; 0];
    try change (bytes_2.msBy 0) with 1%nat;
    try change (bytes_2.msBy (0 + 1)) with 0%nat;
    cbn [set le_value nth].
  - reflexivity.
  - inversion Hrange; subst. rewrite to_byte_small by lia. f_equal. lia.
  - inversion Hrange as [|? ? Hhi Hr]; subst. inversion Hr; subst.
    rewrite !to_byte_small by lia. f_equal. lia.
Qed.

(** The bytes [extendedRead] has stored when its loop ends. *)
Lemma extendedRead_value reg (s : System D) :
  let rx := rxBuffer (wire (snd (extendedRead_request reg s))) in
  fst (extendedRead reg s) =
  register32 (nth 1 rx 0) (nth 2 rx 0) (nth 3 rx 0) (nth 4 rx 0).
Proof.
  cbv zeta. destruct (extendedRead_request_rx reg s) as [Hrange Hlen].
  rewrite extendedRead_split. unfold bind at 1.
  destruct (extendedRead_request reg s) as [u s1]. cbn [snd] in *.
  destruct s1 as [o1 w1]. destruct w1 as [ta tb rb d c].
  cbn [wire rxBuffer] in *.
  destruct rb as [|st [|b3 [|b2 [|b1 [|b0 [|x rest]]]]]];
    cbn [length] in Hlen; [| | | | | |lia];
    receive;
    unfold bytes_4.in_, bytes_4.wr, bytes_4.new, register32, bytes_4.bytes;
    change (le_bytes 4 0) with [0; 0; 0; 0];
    try change (bytes_4.msBy 0) with 3%nat;
    try change (bytes_4.msBy (0 + 1)) with 2%nat;
    try change (bytes_4.msBy (0 + 1 + 1)) with 1%nat;
    try change (bytes_4.msBy (0 + 1 + 1 + 1)) with 0%nat;
    cbn [set le_value nth];
    repeat match goal with
           | Hf : Forall _ (_ :: _) |- _ => inversion Hf; subst; clear Hf
           end;
    rewrite ?to_byte_small by lia; f_equal; lia.
Qed.

End Bus.

Lemma nth_byte (l : list Z) (i : nat) :
  Forall (fun b => 0 <= b < 256) l -> 0 <= nth i l 0 < 256.
Proof.
  intros Hl. destruct (Nat.lt_ge_cases i (length l)) as [Hi|Hi].
  - rewrite Forall_forall in Hl. apply Hl. apply nth_In. exact Hi.
  - rewrite nth_overflow by exact Hi. lia.
Qed.

Lemma byte_of_0_register32 b3 b2 b1 b0 :
  0 <= b0 < 256 -> byte_of 0 (register32 b3 b2 b1 b0) = b0.
Proof.
  intros Hb. unfold byte_of, register32, to_int32. simpl Z.pow.
  rewrite Z.div_1_r. Z.div_mod_to_equations. lia.
Qed.

Section Transactions.

Context {D : Type} `{I2CSlave D}.

(** X8. [normalRead] returns the two bytes the device delivered, first
    byte most significant, as an [int16_t]; a byte the device did not
    deliver reads as zero, so a device that delivers nothing reads as 0
    and there is no error signal. *)
Theorem normalRead_missing_bytes_read_zero reg (s : System D) :
  let rx := rxBuffer (wire (snd (normalRead_request reg s))) in
  (length rx <= 2)%nat /\
  fst (normalRead reg s) = register16 (nth 0 rx 0) (nth 1 rx 0) /\
  (rx = [] -> fst (normalRead reg s) = 0).
Proof.
  cbv zeta. split; [apply normalRead_request_rx|].
  split; [apply normalRead_value|].
  intros Hrx. rewrite normalRead_value, Hrx. reflexivity.
Qed.

(** X9. [extendedRead] drops the first byte the device delivers (the
    status byte) and returns the next four, most-significant first, as an
    [int32_t]; bytes the device did not deliver read as zero, and a device
    that delivers nothing reads as 0. *)
Theorem extendedRead_skips_status_byte reg (s : System D) :
  let rx := rxBuffer (wire (snd (extendedRead_request reg s))) in
  (length rx <= 5)%nat /\
  fst (extendedRead reg s) =
    register32 (nth 1 rx 0) (nth 2 rx 0) (nth 3 rx 0) (nth 4 rx 0) /\
  (rx = [] -> fst (extendedRead reg s) = 0).
Proof.
  cbv zeta. split; [apply extendedRead_request_rx|].
  split; [apply extendedRead_value|].
  intros Hrx. rewrite extendedRead_value, Hrx. reflexivity.
Qed.

(** X10. [readOutputRate] returns the fifth byte of the device's answer to
    the ORATE read (the last data byte), or 0 when fewer than five bytes
    arrive; the bus is left as [extendedRead] left it. *)
Theorem readOutputRate_last_byte (s : System D) :
  fst (readOutputRate s) =
    nth 4 (rxBuffer (wire (snd (extendedRead_request ORATE s)))) 0 /\
  snd (readOutputRate s) = snd (extendedRead ORATE s).
Proof.
  pose proof (extendedRead_value ORATE s) as Hv. cbv zeta in Hv.
  destruct (extendedRead_request_rx ORATE s) as [Hrange _].
  unfold readOutputRate, bind, ret.
  destruct (extendedRead ORATE s) as [x s1]. cbn [fst snd] in *.
  split; [|reflexivity]. subst x.
  unfold bytes_4.rd, bytes_4.of_int, bytes_4.bytes.
  change (bytes_4.msBy 3) with 0%nat. rewrite get_le_bytes by lia.
  apply byte_of_0_register32. apply nth_byte. exact Hrange.
Qed.

(** X11. [normalWrite] sends one write transaction to the cached address
    whose payload is the register number followed by the two data bytes,
    most-significant first, and returns the transport's status for it;
    the driver object and the receive buffer are untouched. *)
Theorem normalWrite_transaction reg data (s : System D) :
  let a := address (sensor s) in
  let payload := [to_byte reg; byte_of 1 data; byte_of 0 data] in
  let answer := transmit (to_byte a) payload (slave (wire s)) in
  normalWrite reg data s =
  (to_byte (fst answer),
   mkSystem (sensor s)
     (mkWire (to_byte a) [] (rxBuffer (wire s)) (snd answer)
        (calls (wire s) ++
         [ BeginTransmission a; WriteByte (to_byte reg);
           WriteByte (byte_of 1 data); WriteByte (byte_of 0 data);
           EndTransmission ]))).
Proof.
  cbv zeta. destruct s as [o w]. destruct w as [ta tb rb d c].
  cbv [normalWrite bind this for_ Wire_beginTransmission Wire_write
       Wire_endTransmission on_wire record ret
       wire sensor txAddress txBuffer rxBuffer slave calls].
  unfold bytes_2.rd, bytes_2.of_int, bytes_2.bytes.
  change (bytes_2.msBy 0) with 1%nat. change (bytes_2.msBy (0 + 1)) with 0%nat.
  rewrite !get_le_bytes by lia. cbn [app Z.of_nat Pos.of_succ_nat].
  rewrite to_byte_idem, !to_byte_byte_of.
  destruct (transmit _ _ d) as [st d']. cbn [fst snd].
  rewrite <- !app_assoc. reflexivity.
Qed.

(** X12. [extendedWrite] sends one write transaction whose payload is EWA,
    the two address bytes, the four data bytes most-significant first and
    the 0x80 confirmation, then asks for one byte and returns it; when the
    device delivers no byte the result is 255.  The transport status of
    the write transaction itself is not looked at. *)
Theorem extendedWrite_transaction reg data (s : System D) :
  let a := address (sensor s) in
  let payload :=
    [ EWA; to_byte (Z.shiftr reg 8); to_byte reg;
      byte_of 3 data; byte_of 2 data; byte_of 1 data; byte_of 0 data; 0x80 ] in
  let answer := transmit (to_byte a) payload (slave (wire s)) in
  let status := reply (to_byte a) 1 (snd answer) in
  fst (extendedWrite reg data s) =
    match fst status with
    | [] => 255
    | b :: _ => to_byte b
    end /\
  slave (wire (snd (extendedWrite reg data s))) = snd status /\
  rxBuffer (wire (snd (extendedWrite reg data s))) = [] /\
  sensor (snd (extendedWrite reg data s)) = sensor s.
Proof.
  cbv zeta. destruct s as [o w]. destruct w as [ta tb rb d c].
  cbv [extendedWrite bind this for_ Wire_beginTransmission Wire_write
       Wire_endTransmission Wire_requestFrom delayMicroseconds on_wire record
       ret wire sensor txAddress txBuffer rxBuffer slave calls].
  unfold bytes_4.rd, bytes_4.of_int, bytes_4.bytes.
  change (bytes_4.msBy 0) with 3%nat. change (bytes_4.msBy (0 + 1)) with 2%nat.
  change (bytes_4.msBy (0 + 1 + 1)) with 1%nat.
  change (bytes_4.msBy (0 + 1 + 1 + 1)) with 0%nat.
  rewrite !get_le_bytes by lia. cbn [app Z.of_nat Pos.of_succ_nat Pos.succ].
  rewrite !to_byte_idem, !to_byte_byte_of.
  change (to_byte EWA) with EWA. change (to_byte 128) with 128.
  destruct (transmit _ _ d) as [st d']. cbn [fst snd].
  destruct (reply (to_byte (address o)) 1 d') as [bytes d''].
  cbn [fst snd]. change (Z.to_nat 1) with 1%nat.
  destruct bytes as [|b rest];
    cbv [firstn map Wire_read on_wire record ret fst snd
         wire sensor txAddress txBuffer rxBuffer slave calls];
    rewrite ?to_byte_idem; auto.
Qed.

(** X13. Write and read agree on the byte order: when the two data bytes
    that [normalWrite(reg, data)] put on the bus are what the device later
    delivers to [normalRead], the read returns [data], for every
    [int16_t] value. *)
Theorem normal_register_round_trip reg reg' data hi lo (s s' : System D) :
  -32768 <= data < 32768 ->
  calls (wire (snd (normalWrite reg data s))) =
    calls (wire s) ++
    [ BeginTransmission (address (sensor s)); WriteByte (to_byte reg);
      WriteByte hi; WriteByte lo; EndTransmission ] ->
  rxBuffer (wire (snd (normalRead_request reg' s'))) = [hi; lo] ->
  fst (normalRead reg' s') = data.
Proof.
  intros Hd Hcalls Hrx.
  destruct (normalWrite_emits (sensor s) reg data s eq_refl) as [Hw _].
  rewrite Hw in Hcalls. apply app_inv_head in Hcalls.
  injection Hcalls as Hhi Hlo. subst hi lo.
  rewrite normalRead_value, Hrx. cbn [nth]. apply register16_bytes. exact Hd.
Qed.

(** X14. The same for the extended space: when the four data bytes that
    [extendedWrite(reg, data)] put on the bus come back after a status
    byte, [extendedRead] returns [data], for every [int32_t] value. *)
Theorem extended_register_round_trip reg reg' data st b3 b2 b1 b0
    (s s' : System D) :
  -2147483648 <= data < 2147483648 ->
  calls (wire (snd (extendedWrite reg data s))) =
    calls (wire s) ++
    [ BeginTransmission (address (sensor s));
      WriteByte EWA;
      WriteByte (to_byte (Z.shiftr reg 8));
      WriteByte (to_byte reg);
      WriteByte b3; WriteByte b2; WriteByte b1; WriteByte b0;
      WriteByte 0x80;
      EndTransmission;
      DelayMicroseconds 10;
      RequestFrom (address (sensor s)) 1;
      Read ] ->
  rxBuffer (wire (snd (extendedRead_request reg' s'))) = [st; b3; b2; b1; b0] ->
  fst (extendedRead reg' s') = data.
Proof.
  intros Hd Hcalls Hrx.
  destruct (extendedWrite_emits (sensor s) reg data s eq_refl) as [Hw _].
  rewrite Hw in Hcalls. apply app_inv_head in Hcalls.
  injection Hcalls as H3 H2 H1 H0. subst b3 b2 b1 b0.
  rewrite extendedRead_value, Hrx. cbn [nth]. apply register32_bytes. exact Hd.
Qed.

End Transactions.

(** ** The cached fields and the return value of [start] *)

Lemma switch_processing_status_values byte1 before :
  0 <= switch_processing_status byte1 before <= 3 \/
  switch_processing_status byte1 before = before.
Proof.
  unfold switch_processing_status.
  repeat match goal with
         | |- context [if ?c then _ else _] => destruct c
         end; auto; left; lia.
Qed.

Section Cache.

Context {D : Type} `{I2CSlave D}.

(** X15. [start] keeps the cached fields in range: [processorState] stays
    within 0..4 and [outputRate] within a byte.  A successful probe never
    produces NotFound by itself: [processorState] is 4 afterwards only if
    it was 4 before (the status nibble was one the switch does not map). *)
Theorem cached_fields_stay_in_range address_ (s : System D) :
  cache_ok (sensor s) ->
  cache_ok (sensor (snd (start address_ s))) /\
  (fst (probe s) = 0 ->
   processorState (sensor (snd (start address_ s))) = 4 ->
   processorState (sensor s) = 4).
Proof.
  intros [Hps Hrate]. rewrite start_sensor.
  destruct (fst (probe s) =? 0) eqn:E.
  - cbn [processorState outputRate]. unfold cache_ok.
    cbn [processorState outputRate].
    match goal with
    | |- context [switch_processing_status ?b ?p] =>
        destruct (switch_processing_status_values b p) as [Hsw|Hsw]
    end.
    + repeat split; try lia; try (apply Z.mod_pos_bound; lia).
    + rewrite Hsw. repeat split; try lia; try (apply Z.mod_pos_bound; lia).
  - apply Z.eqb_neq in E. unfold cache_ok. cbn [processorState outputRate].
    repeat split; lia.
Qed.

(** X16. [start] always returns the transport status of its probe, a
    byte; after a successful probe the last thing it does is the 1 ms
    settle delay. *)
Theorem start_returns_probe_status address_ (s : System D) :
  fst (start address_ s) = fst (probe s) /\
  0 <= fst (start address_ s) < 256 /\
  (fst (probe s) = 0 ->
   exists before,
     calls (wire (snd (start address_ s))) = before ++ [Delay 1]).
Proof.
  assert (Hret : fst (start address_ s) = fst (probe s)).
  { destruct (Z.eq_dec (fst (probe s)) 0) as [Hp|Hp].
    - rewrite (start_ok _ _ Hp). symmetry. exact Hp.
    - rewrite (start_failed _ _ Hp). reflexivity. }
  split; [exact Hret|]. split.
  - rewrite Hret, probe_run. cbn [fst]. apply to_byte_range.
  - intros Hp. rewrite (start_ok _ _ Hp), start_finish_run.
    cbn [snd wire record calls]. eexists. reflexivity.
Qed.

End Cache.

Lemma cached_fields_stay_in_range_witness :
  cache_ok (sensor answering) /\
  cache_ok (sensor (snd (start 0x0D answering))).
Proof.
  assert (Hok : cache_ok (sensor answering)).
  { unfold cache_ok. cbn. lia. }
  split; [exact Hok|].
  apply (proj1 (cached_fields_stay_in_range 0x0D answering Hok)).
Defined.

Lemma start_returns_probe_status_witness :
  fst (probe answering) = 0 /\
  exists before,
    calls (wire (snd (start 0x0D answering))) = before ++ [Delay 1].
Proof.
  destruct (start_returns_probe_status 0x0D answering) as [_ [_ Hlast]].
  split; [reflexivity|]. apply Hlast. reflexivity.
Defined.

Lemma normalRead_missing_bytes_read_zero_witness :
  rxBuffer (wire (snd (normalRead_request ANG silent))) = [] /\
  fst (normalRead ANG silent) = 0.
Proof.
  destruct (normalRead_missing_bytes_read_zero ANG silent) as [_ [_ Hzero]].
  split; [reflexivity|]. apply Hzero. reflexivity.
Defined.

Lemma extendedRead_skips_status_byte_witness :
  rxBuffer (wire (snd (extendedRead_request ORATE silent))) = [] /\
  fst (extendedRead ORATE silent) = 0.
Proof.
  destruct (extendedRead_skips_status_byte ORATE silent) as [_ [_ Hzero]].
  split; [reflexivity|]. apply Hzero. reflexivity.
Defined.

Lemma normal_register_round_trip_witness :
  -32768 <= -12345 < 32768 /\
  fst (normalRead ANG (boot (mkScript [] [[207; 199]]))) = -12345.
Proof.
  split; [lia|].
  apply (normal_register_round_trip CTRL ANG (-12345) 207 199 silent
           (boot (mkScript [] [[207; 199]]))); [lia | reflexivity | reflexivity].
Defined.

Lemma extended_register_round_trip_witness :
  -2147483648 <= 305419896 < 2147483648 /\
  fst (extendedRead ORATE (boot (mkScript [] [[0; 18; 52; 86; 120]])))
  = 305419896.
Proof.
  split; [lia|].
  apply (extended_register_round_trip ORATE ORATE 305419896 0 18 52 86 120 silent
           (boot (mkScript [] [[0; 18; 52; 86; 120]])));
    [lia | reflexivity | reflexivity].
Defined.

(** ** No operation repeats a bus transaction *)

Lemma transactions_app l1 l2 :
  transactions (l1 ++ l2) = (transactions l1 + transactions l2)%nat.
Proof. unfold transactions. rewrite filter_app, length_app. reflexivity. Qed.

Section Counting.

Context {D : Type} `{I2CSlave D}.

Lemma counts_ret A (a : A) : counts 0%nat (ret (D := D) a).
Proof. intros s. exists []. cbn. rewrite app_nil_r. auto. Qed.

Lemma counts_bind A B (c : M D A) (k : A -> M D B) n1 n2 n :
  counts n1 c -> (forall a, counts n2 (k a)) -> (n1 + n2)%nat = n ->
  counts n (bind c k).
Proof.
  intros Hc Hk <- s. unfold bind. destruct (Hc s) as [l1 [H1 N1]].
  destruct (c s) as [a s1]. cbn [snd] in H1.
  destruct (Hk a s1) as [l2 [H2 N2]]. exists (l1 ++ l2).
  rewrite H2, H1, app_assoc, transactions_app, N1, N2. auto.
Qed.

Lemma counts_if A (b : bool) (c1 c2 : M D A) n :
  counts n c1 -> counts n c2 -> counts n (if b then c1 else c2).
Proof. destruct b; auto. Qed.

Lemma counts_for L (body : Z -> L -> M D L) (n : nat) :
  (forall i l, counts 0%nat (body i l)) ->
  forall i l, counts 0%nat (for_ i n body l).
Proof.
  intros Hbody. induction n as [|n IH]; intros i l; cbn [for_].
  - apply counts_ret.
  - eapply counts_bind; [apply Hbody | intros l'; apply IH | reflexivity].
Qed.

Lemma counts_emits A (c : M D A) l n :
  (forall o, emits o c l) -> transactions l = n -> counts n c.
Proof. intros Hc Hn s. exists l. split; [apply (Hc (sensor s) s eq_refl) | exact Hn]. Qed.

Lemma counts_quiet A (c : M D A) :
  (forall s, wire (snd (c s)) = wire s) -> counts 0%nat c.
Proof. intros Hc s. exists []. rewrite Hc, app_nil_r. auto. Qed.

Lemma counts_available : counts 0%nat (Wire_available (D := D)).
Proof. intros s. exists [Available]. auto. Qed.

Lemma counts_delay ms : counts 0%nat (delay (D := D) ms).
Proof. intros s. exists [Delay ms]. auto. Qed.

Lemma counts_beginTransmission a : counts 0%nat (Wire_beginTransmission (D := D) a).
Proof. eapply counts_emits; [intro; apply emits_beginTransmission | reflexivity]. Qed.

Lemma counts_write b : counts 0%nat (Wire_write (D := D) b).
Proof. eapply counts_emits; [intro; apply emits_write | reflexivity]. Qed.

Lemma counts_endTransmission : counts 1%nat (Wire_endTransmission (D := D)).
Proof. eapply counts_emits; [intro; apply emits_endTransmission | reflexivity]. Qed.

Lemma counts_requestFrom a q : counts 1%nat (Wire_requestFrom (D := D) a q).
Proof. eapply counts_emits; [intro; apply emits_requestFrom | reflexivity]. Qed.

Lemma counts_read : counts 0%nat (Wire_read (D := D)).
Proof. eapply counts_emits; [intro; apply emits_read | reflexivity]. Qed.

Lemma counts_delayMicroseconds us : counts 0%nat (delayMicroseconds (D := D) us).
Proof. eapply counts_emits; [intro; apply emits_delayMicroseconds | reflexivity]. Qed.

Ltac count :=
  lazymatch goal with
  | |- counts _ (bind _ _) =>
      eapply counts_bind; [count | intro; count | reflexivity]
  | |- counts _ (if _ then _ else _) => apply counts_if; count
  | |- counts _ (for_ _ _ _ _) => apply counts_for; intros; count
  | |- counts _ (ret _) => apply counts_ret
  | |- counts _ this => apply counts_quiet; reflexivity
  | |- counts _ (set_address _) => apply counts_quiet; reflexivity
  | |- counts _ (set_processorState _) => apply counts_quiet; reflexivity
  | |- counts _ (set_outputRate _) => apply counts_quiet; reflexivity
  | |- counts _ Wire_available => apply counts_available
  | |- counts _ (delay _) => apply counts_delay
  | |- counts _ (Wire_beginTransmission _) => apply counts_beginTransmission
  | |- counts _ (Wire_write _) => apply counts_write
  | |- counts _ Wire_endTransmission => apply counts_endTransmission
  | |- counts _ (Wire_requestFrom _ _) => apply counts_requestFrom
  | |- counts _ Wire_read => apply counts_read
  | |- counts _ (delayMicroseconds _) => apply counts_delayMicroseconds
  end.

Lemma normalWrite_counts reg data : counts 1%nat (normalWrite reg data).
Proof. unfold normalWrite. cbn [for_]. count. Qed.

Lemma normalRead_counts reg : counts 2%nat (normalRead reg).
Proof. unfold normalRead. count. Qed.

Lemma extendedWrite_counts reg data : counts 2%nat (extendedWrite reg data).
Proof. unfold extendedWrite. cbn [for_]. count. Qed.

Lemma extendedRead_counts reg : counts 2%nat (extendedRead reg).
Proof. unfold extendedRead. count. Qed.

Ltac count_ops :=
  lazymatch goal with
  | |- counts _ (bind _ _) =>
      eapply counts_bind; [count_ops | intro; count_ops | reflexivity]
  | |- counts _ (normalRead _) => apply normalRead_counts
  | |- counts _ (extendedRead _) => apply extendedRead_counts
  | |- counts _ probe => unfold probe; count
  | |- _ => count
  end.

Lemma start_reads_counts address_ : counts 5%nat (start_reads address_).
Proof. unfold start_reads. cbv zeta. count_ops. Qed.

Lemma start_counts address_ (s : System D) :
  exists l,
    calls (wire (snd (start address_ s))) = calls (wire s) ++ l /\
    transactions l = if fst (probe s) =? 0 then 5%nat else 1%nat.
Proof.
  destruct (fst (probe s) =? 0) eqn:E.
  - apply Z.eqb_eq in E. rewrite (start_ok _ _ E), start_finish_run.
    cbn [snd wire record calls].
    destruct (start_reads_counts address_ s) as [l [Hl Hn]].
    exists (l ++ [Delay 1]). rewrite Hl, app_assoc, transactions_app, Hn.
    auto.
  - apply Z.eqb_neq in E. rewrite (start_calls_failed _ _ E).
    eexists. split; reflexivity.
Qed.

(** X17. Every operation makes a fixed number of bus transactions (write
    transactions plus read requests), whatever the device answers:
    [normalWrite] one; [normalRead], [extendedWrite] and [extendedRead]
    two; the sensor reads two; [setOutputRate] four; [start] one when the
    probe fails and five when it succeeds.  Nothing is retried or polled. *)
Theorem transactions_per_operation :
  (forall reg data, counts 1%nat (normalWrite reg data)) /\
  (forall reg, counts 2%nat (normalRead reg)) /\
  (forall reg data, counts 2%nat (extendedWrite reg data)) /\
  (forall reg, counts 2%nat (extendedRead reg)) /\
  counts 2%nat readAngle /\
  counts 2%nat readTemp /\
  counts 2%nat readField /\
  counts 2%nat readOutputRate /\
  (forall rate, counts 4%nat (setOutputRate rate)) /\
  (forall address_ (s : System D),
     exists l,
       calls (wire (snd (start address_ s))) = calls (wire s) ++ l /\
       transactions l = if fst (probe s) =? 0 then 5%nat else 1%nat).
Proof.
  repeat match goal with
         | |- _ /\ _ => split
         end;
    try exact normalWrite_counts; try exact normalRead_counts;
    try exact extendedWrite_counts; try exact extendedRead_counts;
    try exact start_counts.
  - unfold readAngle, readAngleRaw. count_ops.
  - unfold readTemp, readTempRaw. count_ops.
  - unfold readField, readFieldRaw. count_ops.
  - unfold readOutputRate. count_ops.
  - intros rate s.
    destruct (setOutputRate_emits (sensor s) rate s eq_refl) as [Hl _].
    eexists. split; [exact Hl | reflexivity].
Qed.

End Counting.

(** ** The shape of a register read on the bus *)

Lemma receive_only_app l1 l2 :
  receive_only l1 -> receive_only l2 -> receive_only (l1 ++ l2).
Proof.
  unfold receive_only. intros H1 H2. rewrite forallb_app, H1, H2. reflexivity.
Qed.

Section Receiving.

Context {D : Type} `{I2CSlave D}.

Lemma receives_ret A (a : A) : records receive_only (ret (D := D) a).
Proof. intros s. exists []. cbn. rewrite app_nil_r. split; reflexivity. Qed.

Lemma receives_bind A B (c : M D A) (k : A -> M D B) :
  records receive_only c -> (forall a, records receive_only (k a)) ->
  records receive_only (bind c k).
Proof.
  intros Hc Hk s. unfold bind. destruct (Hc s) as [l1 [H1 R1]].
  destruct (c s) as [a s1]. cbn [snd] in H1.
  destruct (Hk a s1) as [l2 [H2 R2]]. exists (l1 ++ l2).
  rewrite H2, H1, app_assoc. split; [reflexivity|].
  apply receive_only_app; assumption.
Qed.

Lemma receives_if A (b : bool) (c1 c2 : M D A) :
  records receive_only c1 -> records receive_only c2 ->
  records receive_only (if b then c1 else c2).
Proof. destruct b; auto. Qed.

Lemma receives_for L (body : Z -> L -> M D L) (n : nat) :
  (forall i l, records receive_only (body i l)) ->
  forall i l, records receive_only (for_ i n body l).
Proof.
  intros Hbody. induction n as [|n IH]; intros i l; cbn [for_].
  - apply receives_ret.
  - apply receives_bind; [apply Hbody | intros l'; apply IH].
Qed.

Lemma receives_available : records receive_only (Wire_available (D := D)).
Proof. intros s. exists [Available]. split; reflexivity. Qed.

Lemma receives_read : records receive_only (Wire_read (D := D)).
Proof.
  intros s. exists [Read].
  destruct (emits_read (sensor s) s eq_refl) as [Hl _].
  split; [exact Hl | reflexivity].
Qed.

Ltac receiving :=
  repeat first
    [ apply receives_ret
    | apply receives_available
    | apply receives_read
    | apply receives_if
    | apply receives_for; intros
    | apply receives_bind; [|intro] ].

Lemma receive_after_emits o A B (c : M D A) (k : A -> M D B) l :
  emits o c l -> (forall a, records receive_only (k a)) ->
  forall s, sensor s = o ->
  exists rest,
    calls (wire (snd (bind c k s))) = calls (wire s) ++ l ++ rest /\
    receive_only rest.
Proof.
  intros Hc Hk s Hs. unfold bind. destruct (Hc s Hs) as [Hl _].
  destruct (c s) as [a s1]. cbn [snd] in Hl.
  destruct (Hk a s1) as [rest [Hrest Hr]]. exists rest.
  rewrite Hrest, Hl, <- app_assoc. auto.
Qed.

Ltac emit_calls :=
  repeat first
    [ apply emits_this
    | eapply emits_bind; [|intro]
    | apply emits_beginTransmission
    | apply emits_write
    | apply emits_endTransmission
    | apply emits_requestFrom
    | apply emits_delayMicroseconds ].

Lemma normalRead_request_emits o reg :
  emits o (normalRead_request reg)
    [ BeginTransmission (address o); WriteByte (to_byte reg);
      EndTransmission; RequestFrom (address o) 2 ].
Proof.
  unfold normalRead_request. eapply emits_conv; [emit_calls | reflexivity].
Qed.

Lemma extendedRead_request_emits o reg :
  emits o (extendedRead_request reg)
    [ BeginTransmission (address o); WriteByte ERA;
      WriteByte (to_byte (Z.shiftr reg 8)); WriteByte (to_byte reg);
      WriteByte 0x80; EndTransmission; DelayMicroseconds 10;
      RequestFrom (address o) 5 ].
Proof.
  unfold extendedRead_request. eapply emits_conv; [emit_calls | reflexivity].
Qed.

(** X18. A register read is one write transaction that selects the
    register at the cached address, then one read request, then only
    [available] / [read] calls on the receive buffer.  [normalRead] sends
    the register number and asks for 2 bytes; [extendedRead] sends ERA,
    the two address bytes and 0x80, waits 10 us, and asks for 5 bytes. *)
Theorem register_read_call_shape reg (s : System D) :
  let a := address (sensor s) in
  (exists rest,
     calls (wire (snd (normalRead reg s))) =
     calls (wire s) ++
     [ BeginTransmission a; WriteByte (to_byte reg);
       EndTransmission; RequestFrom a 2 ] ++ rest /\
     receive_only rest) /\
  (exists rest,
     calls (wire (snd (extendedRead reg s))) =
     calls (wire s) ++
     [ BeginTransmission a; WriteByte ERA;
       WriteByte (to_byte (Z.shiftr reg 8)); WriteByte (to_byte reg);
       WriteByte 0x80; EndTransmission; DelayMicroseconds 10;
       RequestFrom a 5 ] ++ rest /\
     receive_only rest).
Proof.
  cbv zeta. split.
  - rewrite normalRead_split.
    apply (receive_after_emits (sensor s)); [apply normalRead_request_emits| |reflexivity].
    intros u. receiving.
  - rewrite extendedRead_split.
    apply (receive_after_emits (sensor s)); [apply extendedRead_request_emits| |reflexivity].
    intros u. receiving.
Qed.

End Receiving.

(** ** What the parity check detects *)

Lemma xor_fold_flip (f : nat -> bool) (i : nat) (n : nat) :
  forall a,
    fold_right xorb false (map (fun j => xorb (f j) (Nat.eqb j i)) (seq a n)) =
    xorb (fold_right xorb false (map f (seq a n)))
         ((a <=? i)%nat && (i <? a + n)%nat).
Proof.
  induction n as [|n IH]; intros a.
  - cbn [seq map fold_right].
    destruct (Nat.leb_spec a i); destruct (Nat.ltb_spec i (a + 0)); cbn; try reflexivity; lia.
  - cbn [seq map fold_right]. rewrite IH.
    destruct (f a); destruct (fold_right xorb false (map f (seq (S a) n)));
      destruct (Nat.eqb_spec a i); destruct (Nat.leb_spec (S a) i);
      destruct (Nat.ltb_spec i (S a + n)); destruct (Nat.leb_spec a i);
      destruct (Nat.ltb_spec i (a + S n)); cbn; try reflexivity; lia.
Qed.

Lemma xor_bits16_flip v i :
  0 <= i < 16 -> xor_bits16 (Z.lxor v (2 ^ i)) = negb (xor_bits16 v).
Proof.
  intros Hi. unfold xor_bits16.
  rewrite (map_ext _ (fun j => xorb (Z.testbit v (Z.of_nat j))
                                    (Nat.eqb j (Z.to_nat i)))).
  - rewrite xor_fold_flip.
    destruct (Nat.leb_spec 0 (Z.to_nat i)); [|lia].
    destruct (Nat.ltb_spec (Z.to_nat i) (0 + 16)); [|lia].
    cbn [andb]. apply xorb_true_r.
  - intros j. rewrite Z.lxor_spec, Z.pow2_bits_eqb by lia. f_equal.
    destruct (Z.eqb_spec i (Z.of_nat j)); destruct (Nat.eqb_spec j (Z.to_nat i));
      try reflexivity; lia.
Qed.

Lemma xor_bits16_to_int16 x : xor_bits16 (to_int16 x) = xor_bits16 x.
Proof.
  unfold xor_bits16. f_equal. apply map_ext_in. intros j Hj.
  apply in_seq in Hj. destruct (to_int16_shift x) as [k Hk].
  rewrite <- (Z.mod_pow2_bits_low (to_int16 x) 16) by lia.
  rewrite <- (Z.mod_pow2_bits_low x 16 (Z.of_nat j)) by lia.
  rewrite Hk. change (256 ^ Z.of_nat 2) with (2 ^ 16).
  rewrite (Z.mul_comm (2 ^ 16) k), Z_mod_plus_full. reflexivity.
Qed.

(** X19. The parity check catches every single-bit error: flipping any one
    of the 16 bits of an angle-register value flips whether the reading is
    valid, so a valid value with one corrupted bit makes [readAngleRaw]
    take its error return and yield 0. *)
Theorem parity_detects_single_bit_errors v i :
  -32768 <= v < 32768 -> 0 <= i < 16 ->
  angle_valid (to_int16 (Z.lxor v (2 ^ i))) = negb (angle_valid v) /\
  (angle_valid v = true -> angle_code (to_int16 (Z.lxor v (2 ^ i))) = 0).
Proof.
  intros Hv Hi.
  destruct (angle_code_spec v Hv) as [Hvalid _].
  destruct (angle_code_spec _ (to_int16_range (Z.lxor v (2 ^ i))))
    as [Hvalid' Hcode'].
  rewrite xor_bits16_to_int16, xor_bits16_flip in Hvalid', Hcode' by exact Hi.
  rewrite <- Hvalid in Hvalid', Hcode'. split; [exact Hvalid'|].
  intros Hok. rewrite Hcode', Hok. reflexivity.
Qed.

Lemma parity_detects_single_bit_errors_witness :
  (-32768 <= 0x1234 < 32768 /\ 0 <= 3 < 16) /\
  angle_valid 0x1234 = true /\
  angle_code (to_int16 (Z.lxor 0x1234 (2 ^ 3))) = 0.
Proof.
  assert (Hv : -32768 <= 0x1234 < 32768) by lia.
  assert (Hi : 0 <= 3 < 16) by lia.
  destruct (parity_detects_single_bit_errors 0x1234 3 Hv Hi) as [_ Hzero].
  split; [split; assumption|]. split; [reflexivity|].
  apply Hzero. reflexivity.
Defined.
